(** * Heading and title inference of the multilingual PDF outline extractor

    A shallow embedding of [src/extract_outline.py]
    (class [MultilingualPDFOutlineExtractor]) and the properties of its
    heading classifier, title selector and outline builder.

    Conventions of the embedding.
    - A Python [str] is the list of its Unicode code points ([list Z]).
    - A Python [float] is a binary64 number ([PrimFloat.float]); [/], [<]
      and [==] are the IEEE operations, as in CPython.
    - [re.match] is a backtracking search; as only the existence of a match
      is observed, it is modelled by the list of all the positions a pattern
      can reach from the start of the text.
    - The tables of the Unicode database that the runtime consults
      ([str.isspace], category Nd, the lowercase mapping, the case
      equivalences of [re.IGNORECASE]) are those of Unicode 14.
    - The fragment sequence is the value returned by
      [extract_text_with_formatting]; opening the PDF is the work of the
      PyMuPDF library and is not part of the embedding. *)

From Stdlib Require Import ZArith List Lia Floats Uint63 Bool.
From Stdlib Require Import Strings.String Strings.Ascii.
From Stdlib Require Import Sorting.Sorted.
From stdpp Require Import gmap list.

Set Warnings "-inexact-float".
Local Open Scope Z_scope.

(** ** Unicode strings *)

Module Unicode.

Abbreviation str := (list Z) (only parsing).

Definition len (s : str) : Z := Z.of_nat (length s).

(** Decoder of the UTF-8 bytes of a literal of this file into code points,
    so that the vocabularies below read as in the source. *)
Definition cont (b : Z) : Z := Z.land b 0x3F.

Fixpoint utf8_decode (bs : list Z) : str :=
  match bs with
  | [] => []
  | b0 :: r0 =>
    if b0 <? 0x80 then b0 :: utf8_decode r0
    else if b0 <? 0xE0 then
      match r0 with
      | b1 :: r1 =>
        Z.lor (Z.shiftl (Z.land b0 0x1F) 6) (cont b1) :: utf8_decode r1
      | _ => []
      end
    else if b0 <? 0xF0 then
      match r0 with
      | b1 :: b2 :: r2 =>
        Z.lor (Z.shiftl (Z.land b0 0x0F) 12)
          (Z.lor (Z.shiftl (cont b1) 6) (cont b2)) :: utf8_decode r2
      | _ => []
      end
    else
      match r0 with
      | b1 :: b2 :: b3 :: r3 =>
        Z.lor (Z.shiftl (Z.land b0 0x07) 18)
          (Z.lor (Z.shiftl (cont b1) 12)
             (Z.lor (Z.shiftl (cont b2) 6) (cont b3))) :: utf8_decode r3
      | _ => []
      end
  end.

Definition u (s : string) : str :=
  utf8_decode (map (fun a => Z.of_N (N_of_ascii a)) (list_ascii_of_string s)).

Definition in_ranges (rs : list (Z * Z)) (c : Z) : bool :=
  existsb (fun r => (fst r <=? c) && (c <=? snd r)) rs.

(** [str.isspace] on one character; also the class [\s] of [re]. *)
Definition isspace (c : Z) : bool :=
  in_ranges
    [(0x09, 0x0D); (0x1C, 0x20); (0x85, 0x85); (0xA0, 0xA0);
     (0x1680, 0x1680); (0x2000, 0x200A); (0x2028, 0x2029);
     (0x202F, 0x202F); (0x205F, 0x205F); (0x3000, 0x3000)] c.

(** General category Nd, the class [\d] of [re] on a [str] pattern. *)
Definition decimal_ranges : list (Z * Z) :=
  [
    (0x30, 0x39); (0x660, 0x669); (0x6F0, 0x6F9); (0x7C0, 0x7C9);
    (0x966, 0x96F); (0x9E6, 0x9EF); (0xA66, 0xA6F); (0xAE6, 0xAEF);
    (0xB66, 0xB6F); (0xBE6, 0xBEF); (0xC66, 0xC6F); (0xCE6, 0xCEF);
    (0xD66, 0xD6F); (0xDE6, 0xDEF); (0xE50, 0xE59); (0xED0, 0xED9);
    (0xF20, 0xF29); (0x1040, 0x1049); (0x1090, 0x1099); (0x17E0, 0x17E9);
    (0x1810, 0x1819); (0x1946, 0x194F); (0x19D0, 0x19D9); (0x1A80, 0x1A89);
    (0x1A90, 0x1A99); (0x1B50, 0x1B59); (0x1BB0, 0x1BB9); (0x1C40, 0x1C49);
    (0x1C50, 0x1C59); (0xA620, 0xA629); (0xA8D0, 0xA8D9); (0xA900, 0xA909);
    (0xA9D0, 0xA9D9); (0xA9F0, 0xA9F9); (0xAA50, 0xAA59); (0xABF0, 0xABF9);
    (0xFF10, 0xFF19); (0x104A0, 0x104A9); (0x10D30, 0x10D39);
    (0x11066, 0x1106F); (0x110F0, 0x110F9); (0x11136, 0x1113F);
    (0x111D0, 0x111D9); (0x112F0, 0x112F9); (0x11450, 0x11459);
    (0x114D0, 0x114D9); (0x11650, 0x11659); (0x116C0, 0x116C9);
    (0x11730, 0x11739); (0x118E0, 0x118E9); (0x11950, 0x11959);
    (0x11C50, 0x11C59); (0x11D50, 0x11D59); (0x11DA0, 0x11DA9);
    (0x16A60, 0x16A69); (0x16AC0, 0x16AC9); (0x16B50, 0x16B59);
    (0x1D7CE, 0x1D7FF); (0x1E140, 0x1E149); (0x1E2F0, 0x1E2F9);
    (0x1E950, 0x1E959); (0x1FBF0, 0x1FBF9)
  ].

Definition isdecimal (c : Z) : bool := in_ranges decimal_ranges c.

(** The simple lowercase mapping, as runs [(first, last, step, delta)]:
    every [c] of the run [first, first+step, .., last] maps to [c+delta]. *)
Definition lower_table : list (Z * Z * Z * Z) :=
  [
    (0x41, 0x5A, 1, 32); (0xC0, 0xD6, 1, 32); (0xD8, 0xDE, 1, 32);
    (0x100, 0x12E, 2, 1); (0x130, 0x130, 1, (-199)); (0x132, 0x136, 2, 1);
    (0x139, 0x147, 2, 1); (0x14A, 0x176, 2, 1); (0x178, 0x178, 1, (-121));
    (0x179, 0x17D, 2, 1); (0x181, 0x181, 1, 210); (0x182, 0x184, 2, 1);
    (0x186, 0x186, 1, 206); (0x187, 0x187, 1, 1); (0x189, 0x18A, 1, 205);
    (0x18B, 0x18B, 1, 1); (0x18E, 0x18E, 1, 79); (0x18F, 0x18F, 1, 202);
    (0x190, 0x190, 1, 203); (0x191, 0x191, 1, 1); (0x193, 0x193, 1, 205);
    (0x194, 0x194, 1, 207); (0x196, 0x196, 1, 211); (0x197, 0x197, 1, 209);
    (0x198, 0x198, 1, 1); (0x19C, 0x19C, 1, 211); (0x19D, 0x19D, 1, 213);
    (0x19F, 0x19F, 1, 214); (0x1A0, 0x1A4, 2, 1); (0x1A6, 0x1A6, 1, 218);
    (0x1A7, 0x1A7, 1, 1); (0x1A9, 0x1A9, 1, 218); (0x1AC, 0x1AC, 1, 1);
    (0x1AE, 0x1AE, 1, 218); (0x1AF, 0x1AF, 1, 1); (0x1B1, 0x1B2, 1, 217);
    (0x1B3, 0x1B5, 2, 1); (0x1B7, 0x1B7, 1, 219); (0x1B8, 0x1B8, 1, 1);
    (0x1BC, 0x1BC, 1, 1); (0x1C4, 0x1C4, 1, 2); (0x1C5, 0x1C5, 1, 1);
    (0x1C7, 0x1C7, 1, 2); (0x1C8, 0x1C8, 1, 1); (0x1CA, 0x1CA, 1, 2);
    (0x1CB, 0x1DB, 2, 1); (0x1DE, 0x1EE, 2, 1); (0x1F1, 0x1F1, 1, 2);
    (0x1F2, 0x1F4, 2, 1); (0x1F6, 0x1F6, 1, (-97)); (0x1F7, 0x1F7, 1, (-56));
    (0x1F8, 0x21E, 2, 1); (0x220, 0x220, 1, (-130)); (0x222, 0x232, 2, 1);
    (0x23A, 0x23A, 1, 10795); (0x23B, 0x23B, 1, 1); (0x23D, 0x23D, 1, (-163));
    (0x23E, 0x23E, 1, 10792); (0x241, 0x241, 1, 1); (0x243, 0x243, 1, (-195));
    (0x244, 0x244, 1, 69); (0x245, 0x245, 1, 71); (0x246, 0x24E, 2, 1);
    (0x370, 0x372, 2, 1); (0x376, 0x376, 1, 1); (0x37F, 0x37F, 1, 116);
    (0x386, 0x386, 1, 38); (0x388, 0x38A, 1, 37); (0x38C, 0x38C, 1, 64);
    (0x38E, 0x38F, 1, 63); (0x391, 0x3A1, 1, 32); (0x3A3, 0x3AB, 1, 32);
    (0x3CF, 0x3CF, 1, 8); (0x3D8, 0x3EE, 2, 1); (0x3F4, 0x3F4, 1, (-60));
    (0x3F7, 0x3F7, 1, 1); (0x3F9, 0x3F9, 1, (-7)); (0x3FA, 0x3FA, 1, 1);
    (0x3FD, 0x3FF, 1, (-130)); (0x400, 0x40F, 1, 80); (0x410, 0x42F, 1, 32);
    (0x460, 0x480, 2, 1); (0x48A, 0x4BE, 2, 1); (0x4C0, 0x4C0, 1, 15);
    (0x4C1, 0x4CD, 2, 1); (0x4D0, 0x52E, 2, 1); (0x531, 0x556, 1, 48);
    (0x10A0, 0x10C5, 1, 7264); (0x10C7, 0x10C7, 1, 7264);
    (0x10CD, 0x10CD, 1, 7264); (0x13A0, 0x13EF, 1, 38864);
    (0x13F0, 0x13F5, 1, 8); (0x1C90, 0x1CBA, 1, (-3008));
    (0x1CBD, 0x1CBF, 1, (-3008)); (0x1E00, 0x1E94, 2, 1);
    (0x1E9E, 0x1E9E, 1, (-7615)); (0x1EA0, 0x1EFE, 2, 1);
    (0x1F08, 0x1F0F, 1, (-8)); (0x1F18, 0x1F1D, 1, (-8));
    (0x1F28, 0x1F2F, 1, (-8)); (0x1F38, 0x1F3F, 1, (-8));
    (0x1F48, 0x1F4D, 1, (-8)); (0x1F59, 0x1F5F, 2, (-8));
    (0x1F68, 0x1F6F, 1, (-8)); (0x1F88, 0x1F8F, 1, (-8));
    (0x1F98, 0x1F9F, 1, (-8)); (0x1FA8, 0x1FAF, 1, (-8));
    (0x1FB8, 0x1FB9, 1, (-8)); (0x1FBA, 0x1FBB, 1, (-74));
    (0x1FBC, 0x1FBC, 1, (-9)); (0x1FC8, 0x1FCB, 1, (-86));
    (0x1FCC, 0x1FCC, 1, (-9)); (0x1FD8, 0x1FD9, 1, (-8));
    (0x1FDA, 0x1FDB, 1, (-100)); (0x1FE8, 0x1FE9, 1, (-8));
    (0x1FEA, 0x1FEB, 1, (-112)); (0x1FEC, 0x1FEC, 1, (-7));
    (0x1FF8, 0x1FF9, 1, (-128)); (0x1FFA, 0x1FFB, 1, (-126));
    (0x1FFC, 0x1FFC, 1, (-9)); (0x2126, 0x2126, 1, (-7517));
    (0x212A, 0x212A, 1, (-8383)); (0x212B, 0x212B, 1, (-8262));
    (0x2132, 0x2132, 1, 28); (0x2160, 0x216F, 1, 16); (0x2183, 0x2183, 1, 1);
    (0x24B6, 0x24CF, 1, 26); (0x2C00, 0x2C2F, 1, 48); (0x2C60, 0x2C60, 1, 1);
    (0x2C62, 0x2C62, 1, (-10743)); (0x2C63, 0x2C63, 1, (-3814));
    (0x2C64, 0x2C64, 1, (-10727)); (0x2C67, 0x2C6B, 2, 1);
    (0x2C6D, 0x2C6D, 1, (-10780)); (0x2C6E, 0x2C6E, 1, (-10749));
    (0x2C6F, 0x2C6F, 1, (-10783)); (0x2C70, 0x2C70, 1, (-10782));
    (0x2C72, 0x2C72, 1, 1); (0x2C75, 0x2C75, 1, 1);
    (0x2C7E, 0x2C7F, 1, (-10815)); (0x2C80, 0x2CE2, 2, 1);
    (0x2CEB, 0x2CED, 2, 1); (0x2CF2, 0x2CF2, 1, 1); (0xA640, 0xA66C, 2, 1);
    (0xA680, 0xA69A, 2, 1); (0xA722, 0xA72E, 2, 1); (0xA732, 0xA76E, 2, 1);
    (0xA779, 0xA77B, 2, 1); (0xA77D, 0xA77D, 1, (-35332));
    (0xA77E, 0xA786, 2, 1); (0xA78B, 0xA78B, 1, 1);
    (0xA78D, 0xA78D, 1, (-42280)); (0xA790, 0xA792, 2, 1);
    (0xA796, 0xA7A8, 2, 1); (0xA7AA, 0xA7AA, 1, (-42308));
    (0xA7AB, 0xA7AB, 1, (-42319)); (0xA7AC, 0xA7AC, 1, (-42315));
    (0xA7AD, 0xA7AD, 1, (-42305)); (0xA7AE, 0xA7AE, 1, (-42308));
    (0xA7B0, 0xA7B0, 1, (-42258)); (0xA7B1, 0xA7B1, 1, (-42282));
    (0xA7B2, 0xA7B2, 1, (-42261)); (0xA7B3, 0xA7B3, 1, 928);
    (0xA7B4, 0xA7C2, 2, 1); (0xA7C4, 0xA7C4, 1, (-48));
    (0xA7C5, 0xA7C5, 1, (-42307)); (0xA7C6, 0xA7C6, 1, (-35384));
    (0xA7C7, 0xA7C9, 2, 1); (0xA7D0, 0xA7D0, 1, 1); (0xA7D6, 0xA7D8, 2, 1);
    (0xA7F5, 0xA7F5, 1, 1); (0xFF21, 0xFF3A, 1, 32);
    (0x10400, 0x10427, 1, 40); (0x104B0, 0x104D3, 1, 40);
    (0x10570, 0x1057A, 1, 39); (0x1057C, 0x1058A, 1, 39);
    (0x1058C, 0x10592, 1, 39); (0x10594, 0x10595, 1, 39);
    (0x10C80, 0x10CB2, 1, 64); (0x118A0, 0x118BF, 1, 32);
    (0x16E40, 0x16E5F, 1, 32); (0x1E900, 0x1E921, 1, 34)
  ].

Definition in_run (g : Z * Z * Z * Z) (c : Z) : bool :=
  let '(lo, hi, step, _) := g in
  (lo <=? c) && (c <=? hi) && ((c - lo) mod step =? 0).

Definition run_delta (g : Z * Z * Z * Z) : Z := let '(_, _, _, d) := g in d.

Definition tolower (c : Z) : Z :=
  match find (fun g => in_run g c) lower_table with
  | Some g => c + run_delta g
  | None => c
  end.

(** [str.lower]: the full mapping differs from the simple one at U+0130,
    which becomes [i] followed by U+0307.  The rule that turns a word-final
    capital sigma into U+03C2 instead of U+03C3 is left out; it only chooses
    between two characters that occur in no vocabulary below. *)
Definition lower_char (c : Z) : str :=
  if c =? 0x130 then [0x69; 0x307] else [tolower c].

Definition lower (s : str) : str := flat_map lower_char s.

(** Characters that [re.IGNORECASE] identifies although their lowercase
    forms differ (table [_EXTRA_CASES] of the [re] package). *)
Definition extra_cases : list (Z * list Z) :=
  [
    (0x69, [0x131]); (0x73, [0x17F]); (0xB5, [0x3BC]); (0x131, [0x69]);
    (0x17F, [0x73]); (0x345, [0x3B9; 0x1FBE]); (0x390, [0x1FD3]);
    (0x3B0, [0x1FE3]); (0x3B2, [0x3D0]); (0x3B5, [0x3F5]); (0x3B8, [0x3D1]);
    (0x3B9, [0x345; 0x1FBE]); (0x3BA, [0x3F0]); (0x3BC, [0xB5]);
    (0x3C0, [0x3D6]); (0x3C1, [0x3F1]); (0x3C2, [0x3C3]); (0x3C3, [0x3C2]);
    (0x3C6, [0x3D5]); (0x3D0, [0x3B2]); (0x3D1, [0x3B8]); (0x3D5, [0x3C6]);
    (0x3D6, [0x3C0]); (0x3F0, [0x3BA]); (0x3F1, [0x3C1]); (0x3F5, [0x3B5]);
    (0x432, [0x1C80]); (0x434, [0x1C81]); (0x43E, [0x1C82]);
    (0x441, [0x1C83]); (0x442, [0x1C84; 0x1C85]); (0x44A, [0x1C86]);
    (0x463, [0x1C87]); (0x1C80, [0x432]); (0x1C81, [0x434]);
    (0x1C82, [0x43E]); (0x1C83, [0x441]); (0x1C84, [0x442; 0x1C85]);
    (0x1C85, [0x442; 0x1C84]); (0x1C86, [0x44A]); (0x1C87, [0x463]);
    (0x1C88, [0xA64B]); (0x1E61, [0x1E9B]); (0x1E9B, [0x1E61]);
    (0x1FBE, [0x345; 0x3B9]); (0x1FD3, [0x390]); (0x1FE3, [0x3B0]);
    (0xA64B, [0x1C88]); (0xFB05, [0xFB06]); (0xFB06, [0xFB05])
  ].

Definition fixes (c : Z) : list Z :=
  match find (fun e => fst e =? c) extra_cases with
  | Some e => snd e
  | None => []
  end.

(** The characters whose simple lowercase form is [t]. *)
Definition lowers_to (t : Z) : list Z :=
  (if tolower t =? t then [t] else [])
  ++ flat_map (fun g => if in_run g (t - run_delta g) then [t - run_delta g]
                        else []) lower_table.

(** All characters that match, under [re.IGNORECASE], whatever [c]
    matches. *)
Definition case_variants (c : Z) : list Z :=
  flat_map lowers_to (tolower c :: fixes (tolower c)).

(** [str.strip()] without argument. *)
Fixpoint lstrip (s : str) : str :=
  match s with
  | c :: s' => if isspace c then lstrip s' else s
  | [] => []
  end.

Definition strip (s : str) : str := rev (lstrip (rev (lstrip s))).

Fixpoint startswith (p s : str) : bool :=
  match p, s with
  | [], _ => true
  | a :: p', b :: s' => (a =? b) && startswith p' s'
  | _ :: _, [] => false
  end.

(** [needle in hay] on strings. *)
Fixpoint contains (needle hay : str) : bool :=
  startswith needle hay ||
  match hay with
  | [] => false
  | _ :: hay' => contains needle hay'
  end.

(** [sep.join(parts)] *)
Fixpoint join (sep : str) (parts : list str) : str :=
  match parts with
  | [] => []
  | [p] => p
  | p :: ps => p ++ sep ++ join sep ps
  end.

(** [a < b] on strings: lexicographic on code points. *)
Fixpoint str_ltb (a b : str) : bool :=
  match a, b with
  | [], [] => false
  | [], _ :: _ => true
  | _ :: _, [] => false
  | x :: a', y :: b' => if x =? y then str_ltb a' b' else x <? y
  end.

Fixpoint str_eqb (a b : str) : bool :=
  match a, b with
  | [], [] => true
  | x :: a', y :: b' => (x =? y) && str_eqb a' b'
  | _, _ => false
  end.

End Unicode.

(** ** Regular expressions of the [re] module *)

Module Regex.

(** The constructs the patterns of the program use.  [Chr p] consumes one
    character satisfying [p]: a literal, a class, a category or the dot. *)
Inductive regex : Type :=
  | Eps
  | Bol                         (* ^ *)
  | Eol                         (* $ *)
  | Chr (p : Z -> bool)
  | Seq (r1 r2 : regex)
  | Alt (r1 r2 : regex)         (* r1|r2 *)
  | Star (r : regex).           (* r* *)

Definition Plus (r : regex) : regex := Seq r (Star r).     (* r+ *)
Definition Opt (r : regex) : regex := Alt r Eps.           (* r? *)
Fixpoint AtLeast (n : nat) (r : regex) : regex :=          (* r{n,} *)
  match n with
  | O => Star r
  | S k => Seq r (AtLeast k r)
  end.
Definition Seqs (rs : list regex) : regex := fold_right Seq Eps rs.
Definition Alts (r : regex) (rs : list regex) : regex := fold_left Alt rs r.

(** Character predicates. *)
Definition char (c : Z) : Z -> bool := fun x => x =? c.
Definition range (lo hi : Z) : Z -> bool :=
  fun x => (lo <=? x) && (x <=? hi).
Definition one_of (cs : list Z) : Z -> bool :=
  fun x => existsb (Z.eqb x) cs.
Definition either (p q : Z -> bool) : Z -> bool := fun x => p x || q x.
Definition neg (p : Z -> bool) : Z -> bool := fun x => negb (p x).
Definition dot : Z -> bool := fun x => negb (x =? 0x0A).   (* no DOTALL *)
Definition d : Z -> bool := Unicode.isdecimal.             (* \d *)
Definition s : Z -> bool := Unicode.isspace.               (* \s *)

(** A literal or class of letters compiled with [re.IGNORECASE]. *)
Definition ci (p : Z -> bool) : Z -> bool :=
  fun x => existsb p (Unicode.case_variants x).

Definition Lit (w : Unicode.str) : regex :=
  Seqs (map (fun c => Chr (char c)) w).
Definition LitI (w : Unicode.str) : regex :=
  Seqs (map (fun c => Chr (ci (char c))) w).

(** A position of the matcher: the number of characters consumed and the
    rest of the text. *)
Definition pos : Type := nat * Unicode.str.

(** Zero or more rounds of [f]; a round that consumes nothing is not
    repeated, so [length] of the rest bounds the number of rounds. *)
Fixpoint star_run (f : pos -> list pos) (fuel : nat) (st : pos) : list pos :=
  st ::
  match fuel with
  | O => []
  | S k =>
    flat_map
      (fun st' =>
         if (length (snd st') <? length (snd st))%nat
         then star_run f k st' else [])
      (f st)
  end.

(** All the positions at which [r], started at [st], can end. *)
Fixpoint run (r : regex) (st : pos) : list pos :=
  match r with
  | Eps => [st]
  | Bol => if (fst st =? 0)%nat then [st] else []
  | Eol =>
    match snd st with
    | [] => [st]
    | [c] => if c =? 0x0A then [st] else []
    | _ => []
    end
  | Chr p =>
    match snd st with
    | c :: rest => if p c then [(S (fst st), rest)] else []
    | [] => []
    end
  | Seq r1 r2 => flat_map (run r2) (run r1 st)
  | Alt r1 r2 => run r1 st ++ run r2 st
  | Star r1 => star_run (run r1) (length (snd st)) st
  end.

(** [re.match(r, text)] is not [None]. *)
Definition re_match (r : regex) (text : Unicode.str) : bool :=
  match run r (O, text) with
  | [] => false
  | _ :: _ => true
  end.

End Regex.

(** ** The sorting primitive *)

(** [sorted(l, key=key)] and [l.sort(key=key)]: a stable sort that compares
    keys with [<] only.  Each element is put in front of the first element
    of the sorted rest whose key is not smaller, so equal keys keep their
    order. *)
Section PySorted.
Context {A K : Type} (key : A -> K) (lt : K -> K -> bool).

Fixpoint insert_sorted (x : A) (l : list A) : list A :=
  match l with
  | [] => [x]
  | y :: l' =>
    if lt (key y) (key x) then y :: insert_sorted x l' else x :: y :: l'
  end.

Definition py_sorted (l : list A) : list A := fold_right insert_sorted [] l.

End PySorted.

(** ** Data model *)

(** One entry of [text_blocks], the dictionary built by
    [extract_text_with_formatting]. *)
Module Block.

Record t : Type := mk {
  text : Unicode.str;
  page : Z;
  font_size : float;
  font_flags : Z;
  font_name : Unicode.str;
  bbox : float * float * float * float
}.

(** [bbox[1]], the top coordinate. *)
Definition bbox1 (b : t) : float :=
  let '(_, y0, _, _) := bbox b in y0.

End Block.

(** The heading levels, the strings ["H1"], ["H2"], ["H3"] of the source. *)
Inductive Level : Type := H1 | H2 | H3.

Definition level_str (l : Level) : Unicode.str :=
  match l with
  | H1 => Unicode.u "H1"
  | H2 => Unicode.u "H2"
  | H3 => Unicode.u "H3"
  end.

(** One entry of [outline]. *)
Module Entry.

Record t : Type := mk {
  level : Level;
  text : Unicode.str;
  page : Z
}.

End Entry.

(** The dictionary returned by [extract_outline]. *)
Record OutlineResult : Type := mkResult {
  title : Unicode.str;
  outline : list Entry.t
}.

(** The second component of [matches_heading_pattern]. *)
Inductive Family : Type :=
  numbered | chapter_section | all_caps | title_case | none.

(** The keys of [char_counts]. *)
Inductive Script : Type := latin | cyrillic | cjk | arabic.

(** ** The extractor *)

Module Extractor.
Import Unicode Regex.

(** [[IVX]] under [re.IGNORECASE]. *)
Definition roman : Z -> bool := ci (one_of (u "IVX")).
(** [(?:\d+|[IVX]+)] *)
Definition numeral : regex := Alt (Plus (Chr d)) (Plus (Chr roman)).
(** [^(?:w1|w2|w3)\s+(?:\d+|[IVX]+)] under [re.IGNORECASE]. *)
Definition keyword_numeral (w1 w2 w3 : string) : regex :=
  Seqs [Bol; Alts (LitI (u w1)) [LitI (u w2); LitI (u w3)];
        Plus (Chr s); numeral].

(** [[A-ZÀ-ſЀ-ӿ]] *)
Definition upper_letter : Z -> bool :=
  either (range 0x41 0x5A) (either (range 0xC0 0x17F) (range 0x400 0x4FF)).
(** [[぀-ゟ゠-ヿ一-龯]] *)
Definition kana_han : Z -> bool :=
  either (range 0x3040 0x309F) (either (range 0x30A0 0x30FF)
                                       (range 0x4E00 0x9FAF)).
(** [[一二三四五六七八九十\d]] *)
Definition han_digit : Z -> bool := either (one_of (u "一二三四五六七八九十")) d.

(** The third pattern of the [numbered] family (line 34), in the source
    [^(?:[A-Z]\.?\s* )+.*$] without the blank. *)
Definition re_alphabetic : regex :=
  Seqs [Bol;
        Plus (Seqs [Chr (ci (range 0x41 0x5A)); Opt (Chr (char 0x2E));
                    Star (Chr s)]);
        Star (Chr dot); Eol].

(** The 52 letters [A-Z] and [a-z]. *)
Definition ascii_letter (c : Z) : Prop :=
  0x41 <= c <= 0x5A \/ 0x61 <= c <= 0x7A.

(** [self.heading_patterns] *)
Definition heading_patterns (family : Family) : list regex :=
  match family with
  | numbered =>
    [ (* line 32: 1., 1.1, 1.1.1 etc *)
      Seqs [Bol;
            Plus (Seqs [Plus (Chr d); Opt (Chr (char 0x2E)); Star (Chr s)]);
            Chr (neg d); Star (Chr dot); Eol];
      (* line 33: Roman numerals *)
      Seqs [Bol;
            Plus (Seqs [Plus (Chr roman); Opt (Chr (char 0x2E));
                        Star (Chr s)]);
            Star (Chr dot); Eol];
      (* line 34: A., B., C. etc *)
      re_alphabetic;
      (* line 35: (1), (2) etc *)
      Seqs [Bol;
            Seqs [Chr (char 0x28); Plus (Chr (range 0x30 0x39));
                  Chr (char 0x29); Star (Chr s)];
            Star (Chr dot); Eol];
      (* line 36: [1], [2] etc *)
      Seqs [Bol;
            Seqs [Chr (char 0x5B); Plus (Chr (range 0x30 0x39));
                  Chr (char 0x5D); Star (Chr s)];
            Star (Chr dot); Eol] ]
  | chapter_section =>
    [ keyword_numeral "Chapter" "Section" "Part";
      keyword_numeral "Kapitel" "Abschnitt" "Teil";
      keyword_numeral "Chapitre" "Section" "Partie";
      keyword_numeral "Capítulo" "Sección" "Parte";
      keyword_numeral "Capitolo" "Sezione" "Parte";
      keyword_numeral "Capítulo" "Seção" "Parte";
      (* ^(?:第\d+章|第\d+節|第\d+部) *)
      Seqs [Bol;
            Alts (Seqs [LitI (u "第"); Plus (Chr d); LitI (u "章")])
                 [Seqs [LitI (u "第"); Plus (Chr d); LitI (u "節")];
                  Seqs [LitI (u "第"); Plus (Chr d); LitI (u "部")]]];
      (* ^(?:第[一二三四五六七八九十\d]+章|第[一二三四五六七八九十\d]+节) *)
      Seqs [Bol;
            Alts (Seqs [LitI (u "第"); Plus (Chr han_digit); LitI (u "章")])
                 [Seqs [LitI (u "第"); Plus (Chr han_digit);
                        LitI (u "节")]]] ]
  | all_caps =>
    [ (* ^[A-Z..]{3,}(?:\s+[A-Z..]{3,})*\s*$ *)
      Seqs [Bol; AtLeast 3 (Chr upper_letter);
            Star (Seqs [Plus (Chr s); AtLeast 3 (Chr upper_letter)]);
            Star (Chr s); Eol];
      (* ^[぀-ゟ゠-ヿ一-龯]{3,}\s*$ *)
      Seqs [Bol; AtLeast 3 (Chr kana_han); Star (Chr s); Eol] ]
  | title_case =>
    [ (* ^[A-ZÀ-ſ][a-zÀ-ſЀ-..龯].{2,}$ *)
      Seqs [Bol;
            Chr (either (range 0x41 0x5A) (range 0xC0 0x17F));
            Chr (either (range 0x61 0x7A)
                   (either (range 0xC0 0x17F)
                      (either (range 0x400 0x4FF) kana_han)));
            AtLeast 2 (Chr dot); Eol] ]
  | none => []
  end.

(** [self.non_heading_words.values()] *)
Definition non_heading_words : list (list str) :=
  [ (* english *)
    [u "abstract"; u "introduction"; u "contents"; u "table of contents";
     u "references"; u "bibliography"];
    (* german *)
    [u "zusammenfassung"; u "einleitung"; u "inhaltsverzeichnis";
     u "literatur"; u "bibliographie"];
    (* french *)
    [u "résumé"; u "introduction"; u "table des matières"; u "références";
     u "bibliographie"];
    (* spanish *)
    [u "resumen"; u "introducción"; u "índice"; u "referencias";
     u "bibliografía"];
    (* japanese *)
    [u "要約"; u "概要"; u "目次"; u "参考文献"];
    (* chinese *)
    [u "摘要"; u "简介"; u "目录"; u "参考文献"];
    (* arabic *)
    [u "ملخص"; u "مقدمة"; u "فهرس"; u "مراجع"] ].

(** [detect_language]: the dominant script of the first fragments. *)
Definition sample_text (text_blocks : list Block.t) : str :=
  join (u " ")
       (map Block.text
            (List.filter (fun block => Block.page block <=? 3)
                         (firstn 50 text_blocks))).

Definition script_of (c : Z) : option Script :=
  if range 0x20 0x24F c then Some latin
  else if range 0x400 0x4FF c then Some cyrillic
  else if range 0x3040 0x9FAF c then Some cjk
  else if range 0x600 0x6FF c then Some arabic
  else None.

Definition script_eqb (a b : Script) : bool :=
  match a, b with
  | latin, latin | cyrillic, cyrillic | cjk, cjk | arabic, arabic => true
  | _, _ => false
  end.

Definition char_count (k : Script) (sample : str) : Z :=
  len (List.filter
         (fun c => match script_of c with
                   | Some k' => script_eqb k k'
                   | None => false
                   end) sample).

(** [max(char_counts, key=char_counts.get)]: the first key, in the order
    of the dictionary, whose count is not exceeded. *)
Definition detect_language (text_blocks : list Block.t) : Script :=
  let sample := sample_text text_blocks in
  fold_left
    (fun best k =>
       if char_count best sample <? char_count k sample then k else best)
    [cyrillic; cjk; arabic] latin.

Definition is_bold (font_flags : Z) : bool :=
  negb (Z.land font_flags (2 ^ 4) =? 0).

Definition matches_heading_pattern (text : str) (language : Script)
  : bool * Family :=
  if existsb (fun pattern => re_match pattern text)
             (heading_patterns numbered)
  then (true, numbered)
  else if existsb (fun pattern => re_match pattern text)
                  (heading_patterns chapter_section)
  then (true, chapter_section)
  else if existsb (fun pattern => re_match pattern text)
                  (heading_patterns all_caps)
  then (true, all_caps)
  else if existsb (fun pattern => re_match pattern text)
                  (heading_patterns title_case)
  then (true, title_case)
  else (false, none).

(** [^[\d\s\-\/\.]+$] *)
Definition pure_number_char : Z -> bool :=
  either d (either s (one_of (u "-/."))).
Definition re_pure_number : regex :=
  Seqs [Bol; Plus (Chr pure_number_char); Eol].

(** The three tests of [is_likely_non_heading]. *)
Definition has_non_heading_word (text : str) : bool :=
  let text_lower := lower text in
  existsb (fun lang_words =>
             existsb (fun word => contains word text_lower) lang_words)
          non_heading_words.

Definition bad_length (text : str) : bool :=
  (len text <? 3) || (200 <? len text).

Definition is_likely_non_heading (text : str) : bool :=
  if has_non_heading_word text then true
  else if bad_length text then true
  else if re_match re_pure_number text then true
  else false.

(** The three patterns of the "specific numbered heading level detection":
    [^\d+\.\s+], [^\d+\.\d+\s+] and [^\d+\.\d+\.\d+\s+]. *)
Definition re_level1 : regex :=
  Seqs [Bol; Plus (Chr d); Chr (char 0x2E); Plus (Chr s)].
Definition re_level2 : regex :=
  Seqs [Bol; Plus (Chr d); Chr (char 0x2E); Plus (Chr d); Plus (Chr s)].
Definition re_level3 : regex :=
  Seqs [Bol; Plus (Chr d); Chr (char 0x2E); Plus (Chr d); Chr (char 0x2E);
        Plus (Chr d); Plus (Chr s)].

Definition numbered_level (text : str) : option Level :=
  if re_match re_level1 text then Some H1
  else if re_match re_level2 text then Some H2
  else if re_match re_level3 text then Some H3
  else None.

(** The three contributions to [score]. *)
Definition pattern_score (pattern_type : Family) : Z :=
  match pattern_type with
  | numbered => 4
  | chapter_section => 5
  | all_caps => 3
  | title_case => 2
  | none => 0
  end.

Definition font_size_ratio (font_size avg_font_size : float) : float :=
  if (0 <? avg_font_size)%float then (font_size / avg_font_size)%float
  else 1%float.

Definition ratio_score (font_size_ratio : float) : Z :=
  if (1.8 <? font_size_ratio)%float then 4
  else if (1.5 <? font_size_ratio)%float then 3
  else if (1.2 <? font_size_ratio)%float then 2
  else if (1.1 <? font_size_ratio)%float then 1
  else 0.

Definition bold_score (is_bold : bool) : Z := if is_bold then 2 else 0.

Definition score (pattern_type : Family) (font_size_ratio : float)
           (is_bold : bool) : Z :=
  pattern_score pattern_type + ratio_score font_size_ratio
  + bold_score is_bold.

Definition family_eqb (a b : Family) : bool :=
  match a, b with
  | numbered, numbered | chapter_section, chapter_section
  | all_caps, all_caps | title_case, title_case | none, none => true
  | _, _ => false
  end.

Definition score_level (score : Z) : option Level :=
  if 6 <=? score then Some H1
  else if 4 <=? score then Some H2
  else if 3 <=? score then Some H3
  else None.

Definition classify_heading_level (text : str) (font_size : float)
           (is_bold : bool) (avg_font_size max_font_size : float)
           (language : Script) : option Level :=
  if is_likely_non_heading text then None
  else
    let pattern_type := snd (matches_heading_pattern text language) in
    let font_size_ratio := font_size_ratio font_size avg_font_size in
    let score := score pattern_type font_size_ratio is_bold in
    match numbered_level text with
    | Some level => Some level
    | None =>
      if family_eqb pattern_type chapter_section then Some H1
      else score_level score
    end.

(** [^(?:Page|页|頁|\d+)(?:\s|$)] under [re.IGNORECASE], and [^\d+\.]. *)
Definition re_page_marker : regex :=
  Seqs [Bol;
        Alts (LitI (u "Page")) [LitI (u "页"); LitI (u "頁"); Plus (Chr d)];
        Alt (Chr s) Eol].
Definition re_numbered_start : regex :=
  Seqs [Bol; Plus (Chr d); Chr (char 0x2E)].

Definition untitled : str := u "Untitled Document".

(** The key [(-x["font_size"], x["bbox"][1])] and [<] on such tuples. *)
Definition title_key (x : Block.t) : float * float :=
  ((- Block.font_size x)%float, Block.bbox1 x).

Definition float_pair_ltb (a b : float * float) : bool :=
  if (fst a =? fst b)%float then (snd a <? snd b)%float
  else (fst a <? fst b)%float.

(** The first loop of [extract_title]. *)
Fixpoint scan_title (blocks : list Block.t) : option str :=
  match blocks with
  | [] => None
  | block :: rest =>
    let text := strip (Block.text block) in
    if is_likely_non_heading text then scan_title rest
    else if re_match re_page_marker text then scan_title rest
    else if (5 <? len text) && (len text <? 150)
            && negb (re_match re_numbered_start text)
    then Some text
    else scan_title rest
  end.

(** The second loop of [extract_title]. *)
Fixpoint scan_substantial (blocks : list Block.t) : option str :=
  match blocks with
  | [] => None
  | block :: rest =>
    let text := strip (Block.text block) in
    if (10 <? len text) && (len text <? 100) then Some text
    else scan_substantial rest
  end.

Definition extract_title (text_blocks : list Block.t) (language : Script)
  : str :=
  let first_page_blocks :=
    List.filter (fun block => Block.page block <=? 2) text_blocks in
  match first_page_blocks with
  | [] => untitled
  | _ :: _ =>
    let first_page_blocks :=
      py_sorted title_key float_pair_ltb first_page_blocks in
    match scan_title (firstn 15 first_page_blocks) with
    | Some text => text
    | None =>
      match scan_substantial first_page_blocks with
      | Some text => text
      | None => untitled
      end
    end
  end.

(** Font statistics of [extract_outline]. *)
Definition float_of_len {A} (l : list A) : float :=
  PrimFloat.of_uint63 (Uint63.of_Z (Z.of_nat (length l))).

Definition average (font_sizes : list float) : float :=
  match font_sizes with
  | [] => 12%float
  | _ :: _ =>
    (fold_left PrimFloat.add font_sizes 0 / float_of_len font_sizes)%float
  end.

Definition maximum (font_sizes : list float) : float :=
  match font_sizes with
  | [] => 12%float
  | x :: rest =>
    fold_left (fun m y => if (m <? y)%float then y else m) rest x
  end.

(** The key [(x["page"], x["level"])] and [<] on such tuples. *)
Definition outline_key (x : Entry.t) : Z * str :=
  (Entry.page x, level_str (Entry.level x)).

Definition key_ltb (a b : Z * str) : bool :=
  if fst a =? fst b then str_ltb (snd a) (snd b) else fst a <? fst b.

(** [a <= b] on the same tuples. *)
Definition key_leb (a b : Z * str) : bool :=
  if fst a =? fst b
  then str_ltb (snd a) (snd b) || str_eqb (snd a) (snd b)
  else fst a <? fst b.

(** The order of the entries by their keys. *)
Definition entry_le (a b : Entry.t) : Prop :=
  key_leb (outline_key a) (outline_key b) = true.

(** One round of the loop over [text_blocks]; the state is [outline] and
    [seen_headings]. *)
Definition heading_step (avg_font_size max_font_size : float)
           (language : Script) (st : list Entry.t * gset str)
           (block : Block.t) : list Entry.t * gset str :=
  let '(outline, seen_headings) := st in
  let text := strip (Block.text block) in
  if bool_decide (text ∈ seen_headings) || (len text =? 0)
  then st
  else
    match classify_heading_level text (Block.font_size block)
            (is_bold (Block.font_flags block))
            avg_font_size max_font_size language with
    | Some level =>
      (outline ++ [Entry.mk level text (Block.page block)],
       seen_headings ∪ {[ text ]})
    | None => st
    end.

Definition collect_headings (text_blocks : list Block.t)
  : list Entry.t :=
  let language := detect_language text_blocks in
  let font_sizes := map Block.font_size text_blocks in
  let avg_font_size := average font_sizes in
  let max_font_size := maximum font_sizes in
  fst (fold_left (heading_step avg_font_size max_font_size language)
                 text_blocks ([], ∅)).

Definition sort_outline (outline : list Entry.t) : list Entry.t :=
  py_sorted outline_key key_ltb outline.

Definition limit_outline (outline : list Entry.t) : list Entry.t :=
  if (100 <? length outline)%nat then firstn 100 outline else outline.

(** [extract_outline], from the point where [text_blocks] is known. *)
Definition extract_outline (text_blocks : list Block.t) : OutlineResult :=
  match text_blocks with
  | [] => mkResult untitled []
  | _ :: _ =>
    let language := detect_language text_blocks in
    let title := extract_title text_blocks language in
    let outline := collect_headings text_blocks in
    let outline := sort_outline outline in
    let outline := limit_outline outline in
    mkResult title outline
  end.

End Extractor.

(** ** Ingestion *)

(** One span of [page.get_text("dict")], with the keys the program reads. *)
Module Span.

Record t : Type := mk {
  text : Unicode.str;
  size : float;
  flags : Z;
  font : Unicode.str;
  bbox : float * float * float * float
}.

End Span.

Module Ingestion.
Import Unicode.

(** The value of [line["spans"]]. *)
Abbreviation Line := (list Span.t) (only parsing).
(** A block of [blocks["blocks"]]: the value of its key ["lines"], or [None]
    when the block has no such key (an image block). *)
Abbreviation RawBlock := (option (list (list Span.t))) (only parsing).
(** A page, as the value of [page.get_text("dict")["blocks"]], and a
    document, as the sequence of its pages. *)
Abbreviation Page := (list (option (list (list Span.t)))) (only parsing).
Abbreviation Document :=
  (list (list (option (list (list Span.t))))) (only parsing).

(** [re.sub(r'\s+', ' ', s)]: every maximal run of white space becomes one
    space.  [in_run] tells that the previous character was white space. *)
Fixpoint sub_spaces_from (in_run : bool) (s : str) : str :=
  match s with
  | [] => []
  | c :: s' =>
    if isspace c
    then if in_run then sub_spaces_from true s'
         else 0x20 :: sub_spaces_from true s'
    else c :: sub_spaces_from false s'
  end.

Definition sub_spaces (s : str) : str := sub_spaces_from false s.

Section WithNFKC.
(** [unicodedata.normalize('NFKC', .)], a table of the Unicode database. *)
Variable nfkc : str -> str.

Definition normalize_text (text : str) : str :=
  let text := sub_spaces (strip text) in
  nfkc text.

(** The body of the loop over [line["spans"]]. *)
Definition span_block (page_num : Z) (span : Span.t) : list Block.t :=
  let text := normalize_text (Span.text span) in
  match text with
  | [] => []
  | _ :: _ =>
    [Block.mk text (page_num + 1) (Span.size span) (Span.flags span)
              (Span.font span) (Span.bbox span)]
  end.

(** The body of the loop over [blocks["blocks"]]. *)
Definition block_blocks (page_num : Z) (block : option (list (list Span.t)))
  : list Block.t :=
  match block with
  | Some lines => flat_map (flat_map (span_block page_num)) lines
  | None => []
  end.

(** The loop over [range(len(doc))], from page index [page_num] on. *)
Fixpoint page_blocks (page_num : Z)
         (pages : list (list (option (list (list Span.t)))))
  : list Block.t :=
  match pages with
  | [] => []
  | page :: rest =>
    flat_map (block_blocks page_num) page ++ page_blocks (page_num + 1) rest
  end.

Definition extract_text_with_formatting
           (doc : list (list (option (list (list Span.t)))))
  : list Block.t :=
  page_blocks 0 doc.

(** [extract_outline], from the opened document. *)
Definition extract_outline_doc
           (doc : list (list (option (list (list Span.t)))))
  : OutlineResult :=
  Extractor.extract_outline (extract_text_with_formatting doc).

End WithNFKC.

End Ingestion.

(** * Properties *)

Import Unicode Regex Extractor.

(** ** The matcher *)

Section Matcher.

Lemma in_flat_map_intro {A B} (f : A -> list B) (l : list A) (a : A) (b : B) :
  In a l -> In b (f a) -> In b (flat_map f l).
Proof. intros Ha Hb. apply in_flat_map. eauto. Qed.

Lemma run_seq (r1 r2 : regex) (a b c : pos) :
  In b (run r1 a) -> In c (run r2 b) -> In c (run (Seq r1 r2) a).
Proof. intros H1 H2. simpl. eapply in_flat_map_intro; eauto. Qed.

Lemma run_alt_l (r1 r2 : regex) (a b : pos) :
  In b (run r1 a) -> In b (run (Alt r1 r2) a).
Proof. intros H. simpl. apply in_or_app. now left. Qed.

Lemma run_alt_r (r1 r2 : regex) (a b : pos) :
  In b (run r2 a) -> In b (run (Alt r1 r2) a).
Proof. intros H. simpl. apply in_or_app. now right. Qed.

Lemma run_chr (p : Z -> bool) (n : nat) (c : Z) (rest : str) :
  p c = true -> In (S n, rest) (run (Chr p) (n, c :: rest)).
Proof. intros H. simpl. rewrite H. now left. Qed.

Lemma run_eol_nil (n : nat) : In (n, []) (run Eol (n, [])).
Proof. now left. Qed.

Lemma run_eol_lf (n : nat) : In (n, [0x0A]) (run Eol (n, [0x0A])).
Proof. now left. Qed.

Lemma star_run_here (f : pos -> list pos) (k : nat) (st : pos) :
  In st (star_run f k st).
Proof. destruct k; now left. Qed.

Lemma star_run_mono (f : pos -> list pos) (k k' : nat) :
  (k <= k')%nat ->
  forall st x, In x (star_run f k st) -> In x (star_run f k' st).
Proof.
  revert k'. induction k as [|k IH]; intros k' Hk st x Hx.
  - destruct Hx as [<-|[]]. apply star_run_here.
  - destruct k' as [|k']; [lia|].
    simpl in Hx |- *. destruct Hx as [->|Hx]; [now left|right].
    apply in_flat_map in Hx as (y & Hy & Hx).
    eapply in_flat_map_intro; [exact Hy|].
    destruct (length (snd y) <? length (snd st))%nat; [|easy].
    apply IH; [lia|exact Hx].
Qed.

(** One more round in front of a star. *)
Lemma run_star_step (r : regex) (a b c : pos) :
  In b (run r a) -> (length (snd b) < length (snd a))%nat ->
  In c (run (Star r) b) -> In c (run (Star r) a).
Proof.
  intros Hb Hlt Hc. simpl in *.
  destruct (length (snd a)) as [|k] eqn:E; [lia|].
  simpl. right. eapply in_flat_map_intro; [exact Hb|].
  rewrite E. assert (Hk : (length (snd b) <= k)%nat) by lia.
  apply Nat.ltb_lt in Hlt as ->.
  eapply star_run_mono; [exact Hk|exact Hc].
Qed.

Lemma run_star_here (r : regex) (a : pos) : In a (run (Star r) a).
Proof. apply star_run_here. Qed.

(** A star over a class consumes any run of characters of the class. *)
Lemma run_star_chr (p : Z -> bool) (l rest : str) (n : nat) :
  forallb p l = true ->
  In ((n + length l)%nat, rest) (run (Star (Chr p)) (n, l ++ rest)).
Proof.
  revert n. induction l as [|c l IH]; intros n Hl.
  - rewrite Nat.add_0_r. apply run_star_here.
  - simpl in Hl. apply andb_true_iff in Hl as [Hc Hl].
    apply (run_star_step _ _ (S n, l ++ rest)).
    + apply (run_chr p n c (l ++ rest) Hc).
    + simpl. lia.
    + replace (n + length (c :: l))%nat with (S n + length l)%nat
        by (simpl; lia).
      apply IH, Hl.
Qed.

(** Conversely, whatever a star over a class consumed is in the class. *)
Lemma star_run_chr_inv (p : Z -> bool) (k n : nat) (l : str) (st : pos) :
  In st (star_run (run (Chr p)) k (n, l)) ->
  exists pre, l = pre ++ snd st /\ forallb p pre = true.
Proof.
  revert n l. induction k as [|k IH]; intros n l H.
  - destruct H as [<-|[]]. now exists [].
  - simpl in H. destruct H as [<-|H]; [now exists []|].
    destruct l as [|c l]; [easy|]. simpl in H.
    destruct (p c) eqn:Hc; [|easy]. simpl in H.
    rewrite app_nil_r in H.
    destruct (length l <? S (length l))%nat; [|easy].
    apply IH in H as (pre & -> & Hpre).
    exists (c :: pre). simpl. now rewrite Hc.
Qed.

Lemma re_match_intro (r : regex) (text : str) (st : pos) :
  In st (run r (O, text)) -> re_match r text = true.
Proof. unfold re_match. now destruct (run r (O, text)). Qed.

Lemma re_match_elim (r : regex) (text : str) :
  re_match r text = true -> exists st, In st (run r (O, text)).
Proof.
  unfold re_match. destruct (run r (O, text)) as [|st l]; [easy|].
  intros _. exists st. now left.
Qed.

End Matcher.

(** ** The heading classifier *)

Section Classifier.
Variables (font_size : float) (is_bold : bool).
Variables (avg_font_size max_font_size : float) (language : Script).

Local Abbreviation classify text :=
  (classify_heading_level text font_size is_bold avg_font_size
                          max_font_size language).

Lemma classify_rejected (text : str) :
  is_likely_non_heading text = true -> classify text = None.
Proof. intros H. unfold classify_heading_level. now rewrite H. Qed.

Lemma classify_numbered_level (text : str) (level : Level) :
  is_likely_non_heading text = false ->
  numbered_level text = Some level ->
  classify text = Some level.
Proof. intros H1 H2. unfold classify_heading_level. now rewrite H1, H2. Qed.

Lemma classify_chapter (text : str) :
  is_likely_non_heading text = false ->
  numbered_level text = None ->
  snd (matches_heading_pattern text language) = chapter_section ->
  classify text = Some H1.
Proof.
  intros H1 H2 H3. unfold classify_heading_level. now rewrite H1, H2, H3.
Qed.

Lemma classify_score (text : str) :
  is_likely_non_heading text = false ->
  numbered_level text = None ->
  snd (matches_heading_pattern text language) <> chapter_section ->
  classify text =
  score_level (score (snd (matches_heading_pattern text language))
                     (font_size_ratio font_size avg_font_size) is_bold).
Proof.
  intros H1 H2 H3. unfold classify_heading_level. rewrite H1, H2.
  destruct (snd (matches_heading_pattern text language)); easy.
Qed.

End Classifier.

Lemma score_level_spec (sc : Z) :
  (score_level sc = Some H1 <-> 6 <= sc)
  /\ (score_level sc = Some H2 <-> 4 <= sc < 6)
  /\ (score_level sc = Some H3 <-> 3 <= sc < 4)
  /\ (score_level sc = None <-> sc < 3).
Proof.
  unfold score_level.
  destruct (Z.leb_spec 6 sc); [repeat split; intros; try easy; lia|].
  destruct (Z.leb_spec 4 sc); [repeat split; intros; try easy; lia|].
  destruct (Z.leb_spec 3 sc); repeat split; intros; try easy; lia.
Qed.

(** The 52 ASCII letters are in [[A-Z]] under [re.IGNORECASE]. *)
Lemma ascii_letter_ci (c : Z) :
  ascii_letter c -> ci (range 0x41 0x5A) c = true.
Proof.
  intros Hc.
  assert (Hall : forallb (ci (range 0x41 0x5A))
                   (map Z.of_nat (seq 0x41 26 ++ seq 0x61 26)) = true)
    by (vm_compute; reflexivity).
  rewrite forallb_forall in Hall. apply Hall.
  replace c with (Z.of_nat (Z.to_nat c)) by (destruct Hc; lia).
  apply in_map, in_or_app.
  destruct Hc; [left|right]; apply in_seq; lia.
Qed.

Lemma re_alphabetic_numbered : In re_alphabetic (heading_patterns numbered).
Proof. simpl. right. right. left. reflexivity. Qed.

Lemma dot_no_lf (l : str) : ~ In 0x0A l -> forallb dot l = true.
Proof.
  intros H. apply forallb_forall. intros x Hx. unfold dot.
  destruct (Z.eqb_spec x 0x0A) as [->|]; [contradiction|reflexivity].
Qed.

(** The unmatched part of a single-line text is consumed by [.*$]. *)
Lemma run_tail (n : nat) (rest : str) :
  ~ In 0x0A (removelast rest) ->
  exists st, In st (run (Seqs [Star (Chr dot); Eol]) (n, rest)).
Proof.
  intros H. destruct (decide (rest = [])) as [->|Hne].
  - exists (n, []). eapply run_seq; [apply run_star_here|].
    eapply run_seq; [apply run_eol_nil|now left].
  - rewrite (app_removelast_last 0 Hne).
    set (body := removelast rest) in *. set (c := List.last rest 0).
    destruct (decide (c = 0x0A)) as [->|Hc].
    + exists ((n + length body)%nat, [0x0A]).
      eapply run_seq; [apply run_star_chr, dot_no_lf, H|].
      eapply run_seq; [apply run_eol_lf|now left].
    + exists ((n + length (body ++ [c]))%nat, []).
      eapply run_seq.
      * pose proof (run_star_chr dot (body ++ [c]) [] n) as Hs.
        rewrite app_nil_r in Hs. apply Hs, dot_no_lf.
        intros Hin. apply in_app_or in Hin as [Hin|[Hin|[]]]; auto.
      * eapply run_seq; [apply run_eol_nil|now left].
Qed.

Lemma re_alphabetic_matches (c : Z) (rest : str) :
  ascii_letter c -> ~ In 0x0A (removelast (c :: rest)) ->
  re_match re_alphabetic (c :: rest) = true.
Proof.
  intros Hc Hlf.
  assert (Hrest : ~ In 0x0A (removelast rest)).
  { destruct rest as [|c' rest]; [easy|].
    intros Hin. apply Hlf. change (In 10 (c :: removelast (c' :: rest))).
    now right. }
  destruct (run_tail 1 rest Hrest) as (st & Hst).
  apply (re_match_intro _ _ st).
  eapply run_seq; [now left|].
  eapply run_seq; [|exact Hst].
  eapply run_seq; [|apply run_star_here].
  eapply run_seq; [apply run_chr, ascii_letter_ci, Hc|].
  eapply run_seq; [apply run_alt_r; now left|].
  eapply run_seq; [apply run_star_here|now left].
Qed.

Lemma family_numbered (text : str) (language : Script) (pattern : regex) :
  In pattern (heading_patterns numbered) ->
  re_match pattern text = true ->
  matches_heading_pattern text language = (true, numbered).
Proof.
  intros Hin Hm. unfold matches_heading_pattern.
  replace (existsb _ (heading_patterns numbered)) with true; [reflexivity|].
  symmetry. apply existsb_exists. eauto.
Qed.

(** *** Decimal numbering *)

(** C1, counterexample: the text "1. Introduction" is not classified H1.
    Its lower-cased form contains the non-heading word "introduction", so
    [is_likely_non_heading] rejects it before the numbering is looked at. *)
Lemma C1_counterexample :
  has_non_heading_word (u "1. Introduction") = true
  /\ classify_heading_level (u "1. Introduction") 12 false 12 12 latin
     = None.
Proof. split; [vm_compute; reflexivity|]. vm_compute; reflexivity. Qed.

(** C1, as amended: for every font size, boldness flag and font statistics,
    "1.1 Background" is classified H2 and "1.1.1 Detail" H3, while
    "1. Introduction" is classified as no heading; and for every text that
    [is_likely_non_heading] accepts, a prefix [<int>. ] gives H1,
    [<int>.<int> ] gives H2 and [<int>.<int>.<int> ] gives H3, whatever the
    score. *)
Theorem C1_numbering_overrides :
  forall (font_size : float) (is_bold : bool)
         (avg_font_size max_font_size : float) (language : Script),
    classify_heading_level (u "1.1 Background") font_size is_bold
      avg_font_size max_font_size language = Some H2
    /\ classify_heading_level (u "1.1.1 Detail") font_size is_bold
         avg_font_size max_font_size language = Some H3
    /\ classify_heading_level (u "1. Introduction") font_size is_bold
         avg_font_size max_font_size language = None
    /\ forall text : str,
        is_likely_non_heading text = false ->
        (re_match re_level1 text = true ->
         classify_heading_level text font_size is_bold avg_font_size
           max_font_size language = Some H1)
        /\ (re_match re_level1 text = false ->
            re_match re_level2 text = true ->
            classify_heading_level text font_size is_bold avg_font_size
              max_font_size language = Some H2)
        /\ (re_match re_level1 text = false ->
            re_match re_level2 text = false ->
            re_match re_level3 text = true ->
            classify_heading_level text font_size is_bold avg_font_size
              max_font_size language = Some H3).
Proof.
  intros. split; [|split; [|split; [|intros text Ha; split; [|split]]]].
  - apply classify_numbered_level; vm_compute; reflexivity.
  - apply classify_numbered_level; vm_compute; reflexivity.
  - apply classify_rejected. vm_compute; reflexivity.
  - intros M1. apply classify_numbered_level; [assumption|].
    unfold numbered_level. now rewrite M1.
  - intros M1 M2. apply classify_numbered_level; [assumption|].
    unfold numbered_level. now rewrite M1, M2.
  - intros M1 M2 M3. apply classify_numbered_level; [assumption|].
    unfold numbered_level. now rewrite M1, M2, M3.
Qed.

(** C1, witness: "1. Overview" is accepted by the filter and is H1, here
    with a font size equal to the average and no bold. *)
Lemma C1_witness :
  is_likely_non_heading (u "1. Overview") = false
  /\ re_match re_level1 (u "1. Overview") = true
  /\ classify_heading_level (u "1. Overview") 12 false 12 12 latin
     = Some H1.
Proof.
  assert (Ha : is_likely_non_heading (u "1. Overview") = false)
    by (vm_compute; reflexivity).
  assert (Hm : re_match re_level1 (u "1. Overview") = true)
    by (vm_compute; reflexivity).
  split; [exact Ha|split; [exact Hm|]].
  exact (proj1 (proj2 (proj2 (proj2
           (C1_numbering_overrides 12 false 12 12 latin)))
           (u "1. Overview") Ha) Hm).
Defined.

(** *** Chapter keywords *)

(** C2, counterexample.  A text of the [chapter_section] family without
    numbering prefix is classified as no heading when it contains a
    non-heading word; and "Chapter 3", with the average font size and no
    bold, is of the [numbered] family and classified H2. *)
Lemma C2_counterexample :
  (snd (matches_heading_pattern (u "第1章 摘要") cjk) = chapter_section
   /\ numbered_level (u "第1章 摘要") = None
   /\ classify_heading_level (u "第1章 摘要") 12 false 12 12 cjk = None)
  /\ (matches_heading_pattern (u "Chapter 3") latin = (true, numbered)
      /\ classify_heading_level (u "Chapter 3") 12 false 12 12 latin
         = Some H2).
Proof.
  split; [split; [|split]|split]; vm_compute; reflexivity.
Qed.

(** C2, as amended: every text that [is_likely_non_heading] accepts, for
    which [matches_heading_pattern] reports the family [chapter_section]
    and which has no decimal numbering prefix, is classified H1 for every
    font size, boldness flag and font statistics. *)
Theorem C2_chapter_section_is_H1 :
  forall (text : str) (font_size : float) (is_bold : bool)
         (avg_font_size max_font_size : float) (language : Script),
    is_likely_non_heading text = false ->
    snd (matches_heading_pattern text language) = chapter_section ->
    numbered_level text = None ->
    classify_heading_level text font_size is_bold avg_font_size
      max_font_size language = Some H1.
Proof. intros. now apply classify_chapter. Qed.

(** C2, witness: "第3章" with the average font size and no bold. *)
Lemma C2_witness :
  classify_heading_level (u "第3章") 12 false 12 12 cjk = Some H1.
Proof.
  apply C2_chapter_section_is_H1; vm_compute; reflexivity.
Defined.

(** *** The alphabetic pattern *)

(** C3, counterexample: a text that starts with an ASCII letter and whose
    family is not [numbered]; no pattern of that family gets past the two
    line feeds. *)
Lemma C3_counterexample :
  matches_heading_pattern (u "Chapter 3" ++ [0x0A; 0x0A] ++ u "x") latin
  = (true, chapter_section).
Proof. vm_compute; reflexivity. Qed.

(** C3, as amended: for every text whose first character is an ASCII
    letter and which has no line feed before its last character,
    [matches_heading_pattern] returns [(True, 'numbered')]; so none of
    [chapter_section], [all_caps] and [title_case] is reported for it. *)
Theorem C3_letter_first_is_numbered :
  forall (text : str) (language : Script) (c : Z) (rest : str),
    text = c :: rest ->
    ascii_letter c ->
    ~ In 0x0A (removelast text) ->
    matches_heading_pattern text language = (true, numbered)
    /\ snd (matches_heading_pattern text language) <> chapter_section
    /\ snd (matches_heading_pattern text language) <> all_caps
    /\ snd (matches_heading_pattern text language) <> title_case.
Proof.
  intros text language c rest -> Hc Hlf.
  assert (H : matches_heading_pattern (c :: rest) language
              = (true, numbered)).
  { eapply family_numbered; [apply re_alphabetic_numbered|].
    now apply re_alphabetic_matches. }
  rewrite H. split; [reflexivity|]. simpl. repeat split; discriminate.
Qed.

(** C3, witness: "Chapter 3". *)
Lemma C3_witness :
  matches_heading_pattern (u "Chapter 3") latin = (true, numbered).
Proof.
  refine (proj1 (C3_letter_first_is_numbered (u "Chapter 3") latin
                   0x43 (u "hapter 3") _ _ _)).
  - reflexivity.
  - left. lia.
  - vm_compute. intuition discriminate.
Defined.

(** *** Scores *)

(** C5: for a text that [is_likely_non_heading] accepts, without numbering
    prefix and not of the [chapter_section] family, the level is H1 iff the
    score is at least 6, H2 iff it is 4 or 5, H3 iff it is 3 and no heading
    iff it is below 3.  For such a text of the [title_case] family: with a
    font ratio of 1.15 and bold the score is 5 and the level H2; with a
    ratio of 1.05 and bold the score is 4 and the level still H2; with a
    ratio of 1.05 and no bold the score is 2 and there is no heading. *)
Theorem C5_score_thresholds :
  forall (text : str) (language : Script),
    is_likely_non_heading text = false ->
    numbered_level text = None ->
    snd (matches_heading_pattern text language) <> chapter_section ->
    (forall (font_size : float) (is_bold : bool)
            (avg_font_size max_font_size : float),
        let sc := score (snd (matches_heading_pattern text language))
                        (font_size_ratio font_size avg_font_size) is_bold in
        let level := classify_heading_level text font_size is_bold
                       avg_font_size max_font_size language in
        (level = Some H1 <-> 6 <= sc)
        /\ (level = Some H2 <-> 4 <= sc < 6)
        /\ (level = Some H3 <-> 3 <= sc < 4)
        /\ (level = None <-> sc < 3))
    /\ (snd (matches_heading_pattern text language) = title_case ->
        forall (font_size avg_font_size max_font_size : float),
          (font_size_ratio font_size avg_font_size = 1.15%float ->
           score title_case 1.15 true = 5
           /\ classify_heading_level text font_size true avg_font_size
                max_font_size language = Some H2)
          /\ (font_size_ratio font_size avg_font_size = 1.05%float ->
              score title_case 1.05 true = 4
              /\ classify_heading_level text font_size true avg_font_size
                   max_font_size language = Some H2
              /\ score title_case 1.05 false = 2
              /\ classify_heading_level text font_size false avg_font_size
                   max_font_size language = None)).
Proof.
  intros text language Ha Hn Hc. split.
  - intros. subst sc level. rewrite classify_score by assumption.
    apply score_level_spec.
  - intros Ht font_size avg_font_size max_font_size.
    split; intros Hr.
    + split; [reflexivity|].
      rewrite classify_score by assumption. now rewrite Ht, Hr.
    + split; [reflexivity|]. split; [|split; [reflexivity|]].
      * rewrite classify_score by assumption. now rewrite Ht, Hr.
      * rewrite classify_score by assumption. now rewrite Ht, Hr.
Qed.

(** C5, witness: "Étude générale" is of the [title_case] family; the font
    sizes 11.5 and 10.5 against an average of 10 give the ratios 1.15 and
    1.05. *)
Lemma C5_witness :
  snd (matches_heading_pattern (u "Étude générale") latin) = title_case
  /\ font_size_ratio 11.5 10 = 1.15%float
  /\ font_size_ratio 10.5 10 = 1.05%float
  /\ classify_heading_level (u "Étude générale") 11.5 true 10 24 latin
     = Some H2
  /\ classify_heading_level (u "Étude générale") 10.5 true 10 24 latin
     = Some H2
  /\ classify_heading_level (u "Étude générale") 10.5 false 10 24 latin
     = None.
Proof.
  assert (Ht : snd (matches_heading_pattern (u "Étude générale") latin)
               = title_case) by (vm_compute; reflexivity).
  assert (H15 : font_size_ratio 11.5 10 = 1.15%float)
    by (vm_compute; reflexivity).
  assert (H05 : font_size_ratio 10.5 10 = 1.05%float)
    by (vm_compute; reflexivity).
  assert (Ha : is_likely_non_heading (u "Étude générale") = false)
    by (vm_compute; reflexivity).
  assert (Hn : numbered_level (u "Étude générale") = None)
    by (vm_compute; reflexivity).
  assert (Hc : snd (matches_heading_pattern (u "Étude générale") latin)
               <> chapter_section) by (rewrite Ht; discriminate).
  pose proof (proj2 (C5_score_thresholds (u "Étude générale") latin
                       Ha Hn Hc) Ht) as H.
  split; [exact Ht|]. split; [exact H15|]. split; [exact H05|].
  split; [exact (proj2 (proj1 (H 11.5 10 24)%float H15))|].
  split; [exact (proj1 (proj2 (proj2 (H 10.5 10 24)%float H05)))|].
  exact (proj2 (proj2 (proj2 (proj2 (H 10.5 10 24)%float H05)))).
Defined.

(** *** The empty document *)

(** C7: on the empty fragment sequence [extract_outline] returns the title
    "Untitled Document" and the empty outline. *)
Theorem C7_empty_document :
  extract_outline [] = mkResult (u "Untitled Document") [].
Proof. reflexivity. Qed.

(** ** The non-heading filter *)

Lemma startswith_spec (p t : str) :
  startswith p t = true <-> exists b, t = p ++ b.
Proof.
  revert t. induction p as [|a p IH]; intros t; simpl.
  - split; [intros _; now exists t|reflexivity].
  - destruct t as [|c t].
    + split; [discriminate|intros (b & H); discriminate].
    + rewrite andb_true_iff, Z.eqb_eq, IH. split.
      * intros (-> & b & ->). now exists b.
      * intros (b & H). injection H as -> ->. split; [reflexivity|].
        now exists b.
Qed.

Lemma contains_spec (needle hay : str) :
  contains needle hay = true <-> exists a b, hay = a ++ needle ++ b.
Proof.
  induction hay as [|c hay IH].
  - simpl. rewrite orb_false_r, startswith_spec. split.
    + intros (b & H). now exists [], b.
    + intros (a & b & H). destruct a; [now exists b|discriminate].
  - simpl. rewrite orb_true_iff, startswith_spec, IH. split.
    + intros [(b & H)|(a & b & H)].
      * now exists [], b.
      * exists (c :: a), b. now rewrite H.
    + intros (a & b & H). destruct a as [|c' a].
      * left. now exists b.
      * right. injection H as -> ->. now exists a, b.
Qed.

Lemma lower_app (a b : str) : lower (a ++ b) = lower a ++ lower b.
Proof. apply flat_map_app. Qed.

Lemma has_non_heading_word_spec (text : str) :
  has_non_heading_word text = true <->
  exists word a b,
    In word (concat non_heading_words) /\ lower text = a ++ word ++ b.
Proof.
  unfold has_non_heading_word. rewrite existsb_exists. split.
  - intros (ws & Hws & H). apply existsb_exists in H as (w & Hw & H).
    apply contains_spec in H as (a & b & H).
    exists w, a, b. split; [|exact H]. apply in_concat. eauto.
  - intros (w & a & b & Hw & H). apply in_concat in Hw as (ws & Hws & Hw).
    exists ws. split; [exact Hws|]. apply existsb_exists.
    exists w. split; [exact Hw|]. apply contains_spec. eauto.
Qed.

Lemma bad_length_spec (text : str) :
  bad_length text = true <-> len text < 3 \/ 200 < len text.
Proof.
  unfold bad_length. now rewrite orb_true_iff, !Z.ltb_lt.
Qed.

Lemma pure_number_char_spec (c : Z) :
  pure_number_char c = true <->
  isdecimal c = true \/ isspace c = true
  \/ c = 0x2D \/ c = 0x2F \/ c = 0x2E.
Proof.
  unfold pure_number_char, either, one_of, d, s.
  change (u "-/.") with [0x2D; 0x2F; 0x2E]. cbn [existsb].
  rewrite !orb_true_iff, !Z.eqb_eq. intuition discriminate.
Qed.

Lemma run_seq_inv (r1 r2 : regex) (a c : pos) :
  In c (run (Seq r1 r2) a) -> exists b, In b (run r1 a) /\ In c (run r2 b).
Proof. simpl. intros H. now apply in_flat_map in H. Qed.

Lemma run_chr_inv (p : Z -> bool) (n : nat) (l : str) (st : pos) :
  In st (run (Chr p) (n, l)) ->
  exists c rest, l = c :: rest /\ p c = true /\ st = (S n, rest).
Proof.
  simpl. destruct l as [|c rest]; [easy|].
  destruct (p c) eqn:Hc; [|easy]. intros [<-|[]]. eauto.
Qed.

Lemma run_eol_inv (a st : pos) :
  In st (run Eol a) -> st = a /\ (snd a = [] \/ snd a = [0x0A]).
Proof.
  simpl. destruct (snd a) as [|c [|c' l]] eqn:E; [| |easy].
  - intros [<-|[]]. auto.
  - destruct (Z.eqb_spec c 0x0A) as [->|]; [|easy]. intros [<-|[]]. auto.
Qed.

(** [^[\d\s\-\/\.]+$] matches the non-empty texts made of these characters
    only; the line feed that [$] tolerates is itself one of them. *)
Lemma re_pure_number_spec (text : str) :
  re_match re_pure_number text = true <->
  text <> [] /\ forall c, In c text -> pure_number_char c = true.
Proof.
  split.
  - intros H. apply re_match_elim in H as (st & H).
    apply run_seq_inv in H as (st0 & H0 & H).
    destruct H0 as [<-|[]].
    apply run_seq_inv in H as (st2 & H & He).
    apply run_seq_inv in H as (st1 & Hc & Hs).
    apply run_chr_inv in Hc as (c & rest & -> & Hc & ->).
    apply star_run_chr_inv in Hs as (pre & -> & Hpre).
    apply run_seq_inv in He as (st3 & He & _).
    apply run_eol_inv in He as (_ & He).
    split; [easy|]. intros x [<-|Hx]; [exact Hc|].
    apply in_app_or in Hx as [Hx|Hx].
    + rewrite forallb_forall in Hpre. now apply Hpre.
    + destruct He as [He|He]; rewrite He in Hx; [easy|].
      destruct Hx as [<-|[]]. reflexivity.
  - intros (Hne & Hall). destruct text as [|c rest]; [easy|].
    apply (re_match_intro _ _ ((1 + length rest)%nat, [])).
    eapply run_seq; [now left|].
    eapply run_seq; [|eapply run_seq; [apply run_eol_nil|now left]].
    eapply run_seq; [apply run_chr, Hall; now left|].
    pose proof (run_star_chr pure_number_char rest [] 1) as Hs.
    rewrite app_nil_r in Hs. apply Hs, forallb_forall.
    intros x Hx. apply Hall. now right.
Qed.

(** C6: [is_likely_non_heading] holds exactly when the lower-cased text
    contains one of the non-heading words, or the text has fewer than 3 or
    more than 200 characters, or every character of the text is a digit, a
    white space, a hyphen, a slash or a period.  Hence a text that contains
    "abstract" in any mix of cases is never classified as a heading. *)
Theorem C6_non_heading_filter :
  (forall text : str,
      is_likely_non_heading text = true <->
      (exists word a b,
          In word (concat non_heading_words)
          /\ lower text = a ++ word ++ b)
      \/ (len text < 3 \/ 200 < len text)
      \/ (forall c, In c text ->
                    isdecimal c = true \/ isspace c = true
                    \/ c = 0x2D \/ c = 0x2F \/ c = 0x2E))
  /\ (forall (before word after : str) (font_size : float) (is_bold : bool)
             (avg_font_size max_font_size : float) (language : Script),
         lower word = u "abstract" ->
         classify_heading_level (before ++ word ++ after) font_size is_bold
           avg_font_size max_font_size language = None).
Proof.
  split.
  - intros text. unfold is_likely_non_heading.
    rewrite <- has_non_heading_word_spec, <- bad_length_spec.
    destruct (has_non_heading_word text); [tauto|].
    destruct (bad_length text) eqn:Hb; [tauto|].
    assert (Hne : text <> []).
    { intros ->. discriminate Hb. }
    assert (Hp : re_match re_pure_number text = true <->
                 forall c, In c text ->
                           isdecimal c = true \/ isspace c = true
                           \/ c = 0x2D \/ c = 0x2F \/ c = 0x2E).
    { rewrite re_pure_number_spec. split.
      - intros (_ & H) c Hc. apply pure_number_char_spec, H, Hc.
      - intros H. split; [exact Hne|].
        intros c Hc. apply pure_number_char_spec, H, Hc. }
    rewrite <- Hp.
    destruct (re_match re_pure_number text); intuition discriminate.
  - intros before word after font_size is_bold avg_font_size max_font_size
           language Hw.
    apply classify_rejected. unfold is_likely_non_heading.
    replace (has_non_heading_word (before ++ word ++ after)) with true;
      [reflexivity|].
    symmetry. apply has_non_heading_word_spec.
    exists (u "abstract"), (lower before), (lower after).
    split; [now left|]. now rewrite !lower_app, Hw.
Qed.

(** C6, witness: "Project Abstract" and "ABSTRACT" are no headings, even
    in bold at three times the average font size. *)
Lemma C6_witness :
  lower (u "Abstract") = u "abstract"
  /\ classify_heading_level (u "Project Abstract") 36 true 12 36 latin
     = None
  /\ classify_heading_level (u "ABSTRACT") 36 true 12 36 latin = None.
Proof.
  split; [vm_compute; reflexivity|]. split.
  - refine (proj2 C6_non_heading_filter (u "Project ") (u "Abstract") []
              36%float true 12%float 36%float latin _).
    vm_compute; reflexivity.
  - refine (proj2 C6_non_heading_filter [] (u "ABSTRACT") []
              36%float true 12%float 36%float latin _).
    vm_compute; reflexivity.
Defined.

(** ** The title selector *)

Lemma py_sorted_nil_inv {A K} (key : A -> K) (lt : K -> K -> bool)
      (l : list A) :
  py_sorted key lt l = [] -> l = [].
Proof.
  destruct l as [|x l]; [reflexivity|]. simpl.
  destruct (py_sorted key lt l) as [|y l']; simpl; [discriminate|].
  destruct (lt (key y) (key x)); discriminate.
Qed.

(** A candidate is skipped by the first loop of [extract_title]. *)
Lemma scan_title_skip (block : Block.t) (rest : list Block.t) :
  (let text := strip (Block.text block) in
   is_likely_non_heading text = true
   \/ re_match re_page_marker text = true
   \/ re_match re_numbered_start text = true
   \/ len text <= 5 \/ 150 <= len text) ->
  scan_title (block :: rest) = scan_title rest.
Proof.
  simpl. intros H.
  destruct (is_likely_non_heading _); [reflexivity|].
  destruct (re_match re_page_marker _); [reflexivity|].
  destruct (re_match re_numbered_start _);
    [now rewrite andb_false_r|].
  destruct (Z.ltb_spec 5 (len (strip (Block.text block))));
    [|reflexivity].
  destruct (Z.ltb_spec (len (strip (Block.text block))) 150);
    [|reflexivity].
  exfalso. destruct H as [H|[H|[H|[H|H]]]]; try discriminate; lia.
Qed.

Lemma scan_title_skips (skipped rest : list Block.t) :
  (forall b, In b skipped ->
             let text := strip (Block.text b) in
             is_likely_non_heading text = true
             \/ re_match re_page_marker text = true
             \/ re_match re_numbered_start text = true
             \/ len text <= 5 \/ 150 <= len text) ->
  scan_title (skipped ++ rest) = scan_title rest.
Proof.
  induction skipped as [|b skipped IH]; intros H; [reflexivity|].
  simpl app. rewrite scan_title_skip by (apply H; now left).
  apply IH. intros b' Hb'. apply H. now right.
Qed.

(** A candidate is returned by the first loop of [extract_title]. *)
Lemma scan_title_hit (block : Block.t) (rest : list Block.t) :
  let text := strip (Block.text block) in
  is_likely_non_heading text = false ->
  re_match re_page_marker text = false ->
  re_match re_numbered_start text = false ->
  5 < len text < 150 ->
  scan_title (block :: rest) = Some text.
Proof.
  simpl. intros -> -> -> [H1 H2].
  apply Z.ltb_lt in H1 as ->. apply Z.ltb_lt in H2 as ->. reflexivity.
Qed.

(** C4, counterexample: the best-ranked candidate "Hello" passes the filter,
    is no page marker and has no numbering, and yet the title is the text
    of the second candidate: "Hello" has only 5 characters. *)
Lemma C4_counterexample :
  let hello := Block.mk (u "Hello") 1 24 0 (u "Helvetica") (72, 10, 300, 34)%float in
  let report :=
    Block.mk (u "Annual Report 2024") 1 10 0 (u "Helvetica")
             (72, 50, 300, 60)%float in
  py_sorted title_key float_pair_ltb
    (List.filter (fun block => Block.page block <=? 2) [report; hello])
  = [hello; report]
  /\ is_likely_non_heading (strip (Block.text hello)) = false
  /\ re_match re_page_marker (strip (Block.text hello)) = false
  /\ re_match re_numbered_start (strip (Block.text hello)) = false
  /\ extract_title [report; hello] latin = u "Annual Report 2024".
Proof.
  cbv zeta. split; [vm_compute; reflexivity|].
  split; [vm_compute; reflexivity|]. split; [vm_compute; reflexivity|].
  split; vm_compute; reflexivity.
Qed.

(** C4, as amended: among the at most 15 best-ranked fragments of the first
    two pages (descending font size, then ascending top coordinate), a
    candidate is skipped when [is_likely_non_heading] rejects it, when it
    starts with a page marker, when it starts with a decimal numbering, or
    when its trimmed text has at most 5 or at least 150 characters; the
    trimmed text of the first candidate that is not skipped is the title. *)
Theorem C4_title_is_first_candidate :
  forall (text_blocks : list Block.t) (language : Script)
         (skipped : list Block.t) (block : Block.t) (rest : list Block.t),
    py_sorted title_key float_pair_ltb
      (List.filter (fun b => Block.page b <=? 2) text_blocks)
    = skipped ++ block :: rest ->
    (length skipped < 15)%nat ->
    (forall b, In b skipped ->
               let text := strip (Block.text b) in
               is_likely_non_heading text = true
               \/ re_match re_page_marker text = true
               \/ re_match re_numbered_start text = true
               \/ len text <= 5 \/ 150 <= len text) ->
    is_likely_non_heading (strip (Block.text block)) = false ->
    re_match re_page_marker (strip (Block.text block)) = false ->
    re_match re_numbered_start (strip (Block.text block)) = false ->
    5 < len (strip (Block.text block)) < 150 ->
    extract_title text_blocks language = strip (Block.text block).
Proof.
  intros text_blocks language skipped block rest Hs Hlen Hskip Ha Hp Hn Hl.
  unfold extract_title.
  destruct (List.filter _ text_blocks) as [|b0 l0] eqn:Hf.
  - simpl in Hs. now destruct skipped.
  - rewrite Hs.
    rewrite firstn_app.
    rewrite (firstn_all2 (n := 15) skipped) by lia.
    destruct (15 - length skipped)%nat as [|k] eqn:Hk; [lia|].
    simpl firstn. rewrite scan_title_skips by assumption.
    now rewrite scan_title_hit.
Qed.

(** C4, witness: with the fragments "Hello" (font size 24) and
    "Annual Report 2024" (font size 10) on page 1, "Hello" is skipped and
    the title is "Annual Report 2024". *)
Lemma C4_witness :
  extract_title
    [Block.mk (u "Annual Report 2024") 1 10 0 (u "Helvetica")
              (72, 50, 300, 60)%float;
     Block.mk (u "Hello") 1 24 0 (u "Helvetica") (72, 10, 300, 34)%float]
    latin
  = u "Annual Report 2024".
Proof.
  refine (C4_title_is_first_candidate _ latin
            [Block.mk (u "Hello") 1 24 0 (u "Helvetica") (72, 10, 300, 34)%float]
            (Block.mk (u "Annual Report 2024") 1 10 0 (u "Helvetica")
                      (72, 50, 300, 60)%float)
            [] _ _ _ _ _ _ _).
  - vm_compute; reflexivity.
  - simpl; lia.
  - intros b [<-|[]]. right. right. right. left. vm_compute. discriminate.
  - vm_compute; reflexivity.
  - vm_compute; reflexivity.
  - vm_compute; reflexivity.
  - vm_compute. split; reflexivity.
Defined.

(** ** The outline builder *)

Section Collect.
Variables (avg_font_size max_font_size : float) (language : Script).

Local Abbreviation level_of block :=
  (classify_heading_level (strip (Block.text block))
     (Block.font_size block) (is_bold (Block.font_flags block))
     avg_font_size max_font_size language).
Local Abbreviation step :=
  (heading_step avg_font_size max_font_size language).

Lemma classify_empty (font_size : float) (bold : bool) :
  classify_heading_level [] font_size bold avg_font_size max_font_size
    language = None.
Proof. now apply classify_rejected. Qed.

Lemma len_zero (text : str) : (len text =? 0) = true -> text = [].
Proof. unfold len. destruct text; [reflexivity|]. simpl. lia. Qed.

(** What the loop of [extract_outline] maintains: [seen_headings] is the
    set of the texts of [outline]; these texts are pairwise different; the
    text of every fragment met so far that classifies as a heading is in
    [seen_headings]; every entry comes from the first fragment with its
    text that classifies as a heading. *)
Lemma collect_invariant (blocks : list Block.t) :
  let st := fold_left step blocks ([], ∅) in
  (forall t : str, t ∈ snd st <-> In t (map Entry.text (fst st)))
  /\ NoDup (map Entry.text (fst st))
  /\ (forall b, In b blocks -> level_of b <> None ->
                strip (Block.text b) ∈ snd st)
  /\ (forall e, In e (fst st) ->
        exists pre b post,
          blocks = pre ++ b :: post
          /\ Entry.text e = strip (Block.text b)
          /\ Entry.page e = Block.page b
          /\ level_of b = Some (Entry.level e)
          /\ forall b', In b' pre ->
                        strip (Block.text b') = Entry.text e ->
                        level_of b' = None).
Proof.
  induction blocks as [|b blocks IH] using rev_ind.
  - simpl. split; [|split; [constructor|split]].
    + intros t. set_solver.
    + intros b [].
    + intros e [].
  - cbv zeta in *. rewrite fold_left_app. simpl fold_left.
    destruct (fold_left step blocks ([], ∅)) as [outline seen].
    destruct IH as (Hseen & Hnd & Hall & Hfirst). simpl in Hseen, Hnd, Hall.
    simpl in Hfirst.
    assert (Hold : forall e, In e outline ->
              exists pre b0 post,
                blocks ++ [b] = pre ++ b0 :: post
                /\ Entry.text e = strip (Block.text b0)
                /\ Entry.page e = Block.page b0
                /\ level_of b0 = Some (Entry.level e)
                /\ forall b', In b' pre ->
                              strip (Block.text b') = Entry.text e ->
                              level_of b' = None).
    { intros e He. destruct (Hfirst e He) as (pre & b0 & post & -> & H).
      exists pre, b0, (post ++ [b]). split; [|exact H].
      now rewrite <- app_assoc. }
    unfold heading_step.
    destruct (bool_decide_reflect (strip (Block.text b) ∈ seen)) as [Hin|Hin].
    { simpl. split; [exact Hseen|]. split; [exact Hnd|]. split; [|exact Hold].
      intros b' Hb' Hl. apply in_app_or in Hb' as [Hb'|[<-|[]]]; auto. }
    destruct (len (strip (Block.text b)) =? 0) eqn:Hz.
    { simpl. split; [exact Hseen|]. split; [exact Hnd|]. split; [|exact Hold].
      intros b' Hb' Hl. apply in_app_or in Hb' as [Hb'|[<-|[]]]; auto.
      exfalso. apply Hl. rewrite (len_zero _ Hz). apply classify_empty. }
    simpl orb. cbv iota.
    destruct (level_of b) as [level|] eqn:Hlev.
    + simpl. split; [|split; [|split]].
      * intros t. rewrite map_app, in_app_iff, elem_of_union,
          elem_of_singleton, Hseen. simpl. intuition.
      * rewrite map_app. simpl. apply NoDup_app. split; [exact Hnd|].
        split; [|apply NoDup_singleton].
        intros t Ht Ht'. apply list_elem_of_singleton in Ht' as ->.
        apply Hin, Hseen, list_elem_of_In, Ht.
      * intros b' Hb' Hl. apply elem_of_union.
        apply in_app_or in Hb' as [Hb'|[<-|[]]]; [left; auto|right].
        now apply elem_of_singleton.
      * intros e He. apply in_app_or in He as [He|[<-|[]]]; [auto|].
        exists blocks, b, []. simpl. split; [reflexivity|].
        split; [reflexivity|]. split; [reflexivity|]. split; [exact Hlev|].
        intros b' Hb' Ht.
        destruct (level_of b') eqn:Hl'; [|reflexivity].
        exfalso. apply Hin. rewrite <- Ht. apply Hall; [exact Hb'|].
        now rewrite Hl'.
    + simpl. split; [exact Hseen|]. split; [exact Hnd|]. split; [|exact Hold].
      intros b' Hb' Hl. apply in_app_or in Hb' as [Hb'|[<-|[]]]; auto.
      now rewrite Hlev in Hl.
Qed.

End Collect.

(** *** Sorting *)

Section SortFacts.
Context {A K : Type} (key : A -> K) (lt : K -> K -> bool).

Lemma insert_sorted_perm (x : A) (l : list A) :
  Permutation (insert_sorted key lt x l) (x :: l).
Proof.
  induction l as [|y l IH]; simpl; [reflexivity|].
  destruct (lt (key y) (key x)); [|reflexivity].
  rewrite IH. apply perm_swap.
Qed.

Lemma py_sorted_perm (l : list A) : Permutation (py_sorted key lt l) l.
Proof.
  induction l as [|x l IH]; simpl; [reflexivity|].
  rewrite insert_sorted_perm. now constructor.
Qed.

Lemma py_sorted_length (l : list A) :
  length (py_sorted key lt l) = length l.
Proof. apply Permutation_length, py_sorted_perm. Qed.

(** With a total and transitive [le] that agrees with [lt], the result is
    sorted. *)
Variable le : A -> A -> Prop.
Hypothesis le_total : forall x y, lt (key y) (key x) = false -> le x y.
Hypothesis lt_le : forall x y, lt (key y) (key x) = true -> le y x.
Hypothesis le_trans : forall x y z, le x y -> le y z -> le x z.

Lemma insert_sorted_sorted (x : A) (l : list A) :
  StronglySorted le l -> StronglySorted le (insert_sorted key lt x l).
Proof.
  induction 1 as [|y l Hl IH Hy]; simpl.
  - repeat constructor.
  - destruct (lt (key y) (key x)) eqn:E.
    + constructor; [exact IH|].
      apply Forall_forall. intros z Hz. apply list_elem_of_In in Hz.
      apply (Permutation_in _ (insert_sorted_perm x l)) in Hz
        as [<-|Hz].
      * now apply lt_le.
      * rewrite Forall_forall in Hy. apply Hy. now apply list_elem_of_In.
    + constructor; [now constructor|].
      constructor; [now apply le_total|].
      eapply Forall_impl; [exact Hy|].
      intros z Hz. eapply le_trans; [|exact Hz]. now apply le_total.
Qed.

Lemma py_sorted_sorted (l : list A) : StronglySorted le (py_sorted key lt l).
Proof.
  induction l as [|x l IH]; simpl; [constructor|].
  now apply insert_sorted_sorted.
Qed.

End SortFacts.

Lemma strongly_sorted_lookup {A} (le : A -> A -> Prop) (l : list A) :
  StronglySorted le l ->
  forall (i j : nat) (a b : A),
    (i < j)%nat -> nth_error l i = Some a -> nth_error l j = Some b ->
    le a b.
Proof.
  induction 1 as [|x l Hl IH Hx]; intros i j a b Hij Ha Hb.
  - now destruct i.
  - destruct j as [|j]; [lia|]. simpl in Hb.
    destruct i as [|i]; simpl in Ha.
    + injection Ha as <-. rewrite Forall_forall in Hx. apply Hx.
      apply list_elem_of_In. eapply nth_error_In, Hb.
    + apply (IH i j); [lia|assumption|assumption].
Qed.

Lemma in_firstn {A} (n : nat) (l : list A) (x : A) :
  In x (firstn n l) -> In x l.
Proof.
  intros H. rewrite <- (firstn_skipn n l). apply in_or_app. now left.
Qed.

Lemma nodup_firstn {A} (n : nat) (l : list A) :
  NoDup l -> NoDup (firstn n l).
Proof.
  intros H. rewrite <- (firstn_skipn n l) in H.
  now apply NoDup_app in H as (H & _).
Qed.

Lemma strongly_sorted_firstn {A} (le : A -> A -> Prop) (n : nat)
      (l : list A) :
  StronglySorted le l -> StronglySorted le (firstn n l).
Proof.
  intros H. revert n. induction H as [|x l Hl IH Hx]; intros n.
  - destruct n; constructor.
  - destruct n; simpl; constructor; [apply IH|].
    rewrite Forall_forall in *. intros y Hy. apply Hx.
    apply list_elem_of_In. apply list_elem_of_In in Hy.
    eapply in_firstn, Hy.
Qed.

Lemma limit_outline_firstn (l : list Entry.t) :
  limit_outline l = firstn 100 l.
Proof.
  unfold limit_outline. destruct (Nat.ltb_spec 100 (length l));
    [reflexivity|]. symmetry. now apply firstn_all2.
Qed.

(** *** The order of the keys *)

Lemma level_str_ltb (l1 l2 : Level) :
  str_ltb (level_str l1) (level_str l2) =
  match l1, l2 with
  | H1, H2 | H1, H3 | H2, H3 => true
  | _, _ => false
  end.
Proof. destruct l1, l2; vm_compute; reflexivity. Qed.

Lemma level_str_eqb (l1 l2 : Level) :
  str_eqb (level_str l1) (level_str l2) =
  match l1, l2 with
  | H1, H1 | H2, H2 | H3, H3 => true
  | _, _ => false
  end.
Proof. destruct l1, l2; vm_compute; reflexivity. Qed.

Ltac key_cases :=
  unfold entry_le, key_leb, key_ltb, outline_key;
  cbn [fst snd Entry.page Entry.level];
  rewrite ?level_str_ltb, ?level_str_eqb.

Lemma entry_le_total (x y : Entry.t) :
  key_ltb (outline_key y) (outline_key x) = false -> entry_le x y.
Proof.
  destruct x as [lx tx px], y as [ly ty py]. key_cases.
  destruct (Z.eqb_spec py px), (Z.eqb_spec px py); try lia.
  destruct lx, ly; simpl; congruence.
Qed.

Lemma entry_lt_le (x y : Entry.t) :
  key_ltb (outline_key y) (outline_key x) = true -> entry_le y x.
Proof.
  destruct x as [lx tx px], y as [ly ty py]. key_cases.
  destruct (Z.eqb_spec py px); [|easy].
  destruct lx, ly; simpl; congruence.
Qed.

Lemma entry_le_trans (x y z : Entry.t) :
  entry_le x y -> entry_le y z -> entry_le x z.
Proof.
  destruct x as [lx tx px], y as [ly ty py], z as [lz tz pz]. key_cases.
  destruct (Z.eqb_spec px py), (Z.eqb_spec py pz), (Z.eqb_spec px pz);
    try lia; rewrite ?Z.ltb_lt; try lia;
    destruct lx, ly, lz; simpl; congruence.
Qed.

Lemma entry_le_spec (a b : Entry.t) :
  entry_le a b ->
  Entry.page a < Entry.page b
  \/ (Entry.page a = Entry.page b
      /\ (str_ltb (level_str (Entry.level a)) (level_str (Entry.level b))
          = true
          \/ Entry.level a = Entry.level b)).
Proof.
  destruct a as [la ta pa], b as [lb tb pb]. key_cases.
  destruct (Z.eqb_spec pa pb) as [->|].
  - intros H. right. split; [reflexivity|].
    destruct la, lb; simpl in *; auto; discriminate.
  - intros H. apply Z.ltb_lt in H. now left.
Qed.

Lemma sort_outline_sorted (l : list Entry.t) :
  StronglySorted entry_le (sort_outline l).
Proof.
  apply py_sorted_sorted.
  - apply entry_le_total.
  - apply entry_lt_le.
  - apply entry_le_trans.
Qed.

(** The outline that [extract_outline] returns. *)
Lemma outline_extract (text_blocks : list Block.t) :
  outline (extract_outline text_blocks)
  = firstn 100 (sort_outline (collect_headings text_blocks)).
Proof.
  destruct text_blocks as [|b l]; [reflexivity|].
  unfold extract_outline. cbv zeta. cbn [outline].
  apply limit_outline_firstn.
Qed.

(** *** Uniqueness *)

(** C8, counterexample: two fragments with the same text, the first one
    not bold and classified as no heading, the second one bold and
    classified H2.  The entry kept is the second occurrence, on page 2. *)
Lemma C8_counterexample :
  let first :=
    Block.mk (u "Étude générale") 1 10 0 (u "Helvetica")
             (72, 10, 300, 20)%float in
  let second :=
    Block.mk (u "Étude générale") 2 10 16 (u "Helvetica-Bold")
             (72, 10, 300, 20)%float in
  outline (extract_outline [first; second])
  = [Entry.mk H2 (u "Étude générale") 2].
Proof. vm_compute; reflexivity. Qed.

(** C8, as amended: no two entries of the returned outline have the same
    text, and every entry is made from the first fragment, in scan order,
    that has this trimmed text and that [classify_heading_level] accepts:
    the entry has the page of that fragment and the level it classified
    to, and the earlier fragments with the same text classified as no
    heading. *)
Theorem C8_unique_texts :
  forall text_blocks : list Block.t,
    let font_sizes := map Block.font_size text_blocks in
    let level_of block :=
      classify_heading_level (strip (Block.text block))
        (Block.font_size block) (is_bold (Block.font_flags block))
        (average font_sizes) (maximum font_sizes)
        (detect_language text_blocks) in
    NoDup (map Entry.text (outline (extract_outline text_blocks)))
    /\ forall e : Entry.t,
        In e (outline (extract_outline text_blocks)) ->
        exists (before : list Block.t) (block : Block.t)
               (after : list Block.t),
          text_blocks = before ++ block :: after
          /\ Entry.text e = strip (Block.text block)
          /\ Entry.page e = Block.page block
          /\ level_of block = Some (Entry.level e)
          /\ forall b, In b before ->
                       strip (Block.text b) = Entry.text e ->
                       level_of b = None.
Proof.
  intros text_blocks font_sizes level_of. rewrite outline_extract.
  pose proof (collect_invariant (average font_sizes) (maximum font_sizes)
                (detect_language text_blocks) text_blocks) as H.
  cbv zeta in H. destruct H as (_ & Hnd & _ & Hfirst).
  split.
  - rewrite <- firstn_map. apply nodup_firstn.
    assert (Hp : Permutation
                   (map Entry.text
                        (sort_outline (collect_headings text_blocks)))
                   (map Entry.text (collect_headings text_blocks)))
      by apply Permutation_map, py_sorted_perm.
    rewrite Hp. exact Hnd.
  - intros e He. apply in_firstn in He.
    apply (Permutation_in _ (py_sorted_perm _ _ _)) in He.
    exact (Hfirst e He).
Qed.

(** C8, witness: the same text on three fragments, accepted at its second
    occurrence. *)
Lemma C8_witness :
  NoDup (map Entry.text (outline (extract_outline
    [Block.mk (u "Étude générale") 1 10 0 (u "Helvetica")
              (72, 10, 300, 20)%float;
     Block.mk (u "Étude générale") 2 10 16 (u "Helvetica-Bold")
              (72, 10, 300, 20)%float;
     Block.mk (u "Étude générale") 3 30 16 (u "Helvetica-Bold")
              (72, 10, 300, 20)%float]))).
Proof. exact (proj1 (C8_unique_texts _)). Defined.

(** *** Order *)

(** C9: in the returned outline an earlier entry has a smaller page than a
    later one, or the same page and a level that is smaller or equal as a
    string, where "H1" < "H2" < "H3". *)
Theorem C9_outline_sorted :
  forall (text_blocks : list Block.t) (i j : nat) (ei ej : Entry.t),
    (i < j)%nat ->
    nth_error (outline (extract_outline text_blocks)) i = Some ei ->
    nth_error (outline (extract_outline text_blocks)) j = Some ej ->
    (Entry.page ei < Entry.page ej
     \/ (Entry.page ei = Entry.page ej
         /\ (str_ltb (level_str (Entry.level ei))
                     (level_str (Entry.level ej)) = true
             \/ Entry.level ei = Entry.level ej)))
    /\ str_ltb (level_str H1) (level_str H2) = true
    /\ str_ltb (level_str H2) (level_str H3) = true.
Proof.
  intros text_blocks i j ei ej Hij Hi Hj.
  split; [|split; reflexivity].
  apply entry_le_spec. rewrite outline_extract in Hi, Hj.
  eapply strongly_sorted_lookup; [|exact Hij|exact Hi|exact Hj].
  apply strongly_sorted_firstn, sort_outline_sorted.
Qed.

(** C9, witness: three numbered headings met in the order page 2, page 1
    (H2), page 1 (H1); the first two entries of the outline are those of
    page 1, H1 before H2. *)
Lemma C9_witness :
  let blocks :=
    [Block.mk (u "2.1 Results") 2 12 0 (u "Helvetica")
              (72, 10, 300, 20)%float;
     Block.mk (u "1.1 Scope") 1 12 0 (u "Helvetica")
              (72, 40, 300, 50)%float;
     Block.mk (u "1. Overview") 1 12 0 (u "Helvetica")
              (72, 10, 300, 20)%float] in
  let e0 := Entry.mk H1 (u "1. Overview") 1 in
  let e1 := Entry.mk H2 (u "1.1 Scope") 1 in
  nth_error (outline (extract_outline blocks)) 0 = Some e0
  /\ nth_error (outline (extract_outline blocks)) 1 = Some e1
  /\ (Entry.page e0 < Entry.page e1
      \/ (Entry.page e0 = Entry.page e1
          /\ (str_ltb (level_str (Entry.level e0))
                      (level_str (Entry.level e1)) = true
              \/ Entry.level e0 = Entry.level e1))).
Proof.
  intros blocks e0 e1.
  assert (H0 : nth_error (outline (extract_outline blocks)) 0 = Some e0)
    by (vm_compute; reflexivity).
  assert (H1 : nth_error (outline (extract_outline blocks)) 1 = Some e1)
    by (vm_compute; reflexivity).
  split; [exact H0|]. split; [exact H1|].
  refine (proj1 (C9_outline_sorted blocks 0 1 e0 e1 _ H0 H1)). lia.
Defined.

(** *** Bound *)

(** C10: the returned outline has at most 100 entries; when more than 100
    headings were accepted it consists of the first 100 entries of the
    sorted list. *)
Theorem C10_outline_bound :
  forall text_blocks : list Block.t,
    (length (outline (extract_outline text_blocks)) <= 100)%nat
    /\ ((100 < length (collect_headings text_blocks))%nat ->
        outline (extract_outline text_blocks)
        = firstn 100 (sort_outline (collect_headings text_blocks))).
Proof.
  intros text_blocks. rewrite outline_extract. split.
  - apply firstn_le_length.
  - reflexivity.
Qed.

(** C10, witness: 101 fragments with pairwise different texts, all
    accepted; the outline keeps 100 of them. *)
Lemma C10_witness :
  let blocks :=
    map (fun k => Block.mk (u "Part " ++ [0x61 + Z.of_nat (k / 26);
                                          0x61 + Z.of_nat (k mod 26)])
                           (1 + Z.of_nat (k mod 7)) 12 0 (u "Helvetica")
                           (72, 10, 300, 20)%float)
        (seq 0 101) in
  (100 < length (collect_headings blocks))%nat
  /\ length (outline (extract_outline blocks)) = 100%nat
  /\ outline (extract_outline blocks)
     = firstn 100 (sort_outline (collect_headings blocks)).
Proof.
  intros blocks.
  assert (H : (100 < length (collect_headings blocks))%nat)
    by (apply Nat.ltb_lt; vm_compute; reflexivity).
  split; [exact H|]. split; [vm_compute; reflexivity|].
  exact (proj2 (C10_outline_bound blocks) H).
Defined.

(** * Further properties of the extractor *)

(** ** Style flags and script detection *)

Lemma land_pow2 (a n : Z) :
  0 <= n -> Z.land a (2 ^ n) = if Z.testbit a n then 2 ^ n else 0.
Proof.
  intros Hn. apply Z.bits_inj'. intros m Hm.
  rewrite Z.land_spec, Z.pow2_bits_eqb by assumption.
  destruct (Z.eqb_spec n m) as [->|Hne].
  - destruct (Z.testbit a m); simpl.
    + now rewrite Z.pow2_bits_eqb, Z.eqb_refl.
    + now rewrite Z.bits_0.
  - rewrite andb_false_r. destruct (Z.testbit a n).
    + rewrite Z.pow2_bits_eqb by assumption.
      symmetry. now apply Z.eqb_neq.
    + now rewrite Z.bits_0.
Qed.

(** X1: [is_bold] is the value of bit 4 of the font flags, also for flags
    that carry other style bits; so it is unchanged when any other bit is
    set or cleared. *)
Theorem is_bold_bit4 :
  forall font_flags : Z,
    is_bold font_flags = Z.testbit font_flags 4
    /\ forall n : Z, 0 <= n -> n <> 4 ->
         is_bold (Z.lor font_flags (2 ^ n)) = is_bold font_flags
         /\ is_bold (Z.ldiff font_flags (2 ^ n)) = is_bold font_flags.
Proof.
  assert (H : forall f, is_bold f = Z.testbit f 4).
  { intros f. unfold is_bold. rewrite land_pow2 by lia.
    now destruct (Z.testbit f 4). }
  intros font_flags. split; [apply H|]. intros n Hn Hne.
  rewrite !H, Z.lor_spec, Z.ldiff_spec, Z.pow2_bits_eqb by assumption.
  apply Z.eqb_neq in Hne as ->. simpl.
  now rewrite orb_false_r, andb_true_r.
Qed.

(** X2: [detect_language] returns a script whose count in the sample is
    not exceeded, and among such scripts the first in the order latin,
    cyrillic, cjk, arabic. *)
Theorem detect_language_maximal :
  forall text_blocks : list Block.t,
    let count k := char_count k (sample_text text_blocks) in
    let best := detect_language text_blocks in
    (forall k, count k <= count best)
    /\ (best = latin <->
        count cyrillic <= count latin /\ count cjk <= count latin
        /\ count arabic <= count latin)
    /\ (best = cyrillic <->
        count latin < count cyrillic /\ count cjk <= count cyrillic
        /\ count arabic <= count cyrillic)
    /\ (best = cjk <->
        count latin < count cjk /\ count cyrillic < count cjk
        /\ count arabic <= count cjk)
    /\ (best = arabic <->
        count latin < count arabic /\ count cyrillic < count arabic
        /\ count cjk < count arabic).
Proof.
  intros text_blocks count best. subst best. unfold detect_language.
  cbv zeta. fold (count latin) (count cyrillic) (count cjk) (count arabic).
  cbn [fold_left]. fold (count latin) (count cyrillic).
  destruct (Z.ltb_spec (count latin) (count cyrillic)) as [H1|H1];
    [fold (count cyrillic) (count cjk);
     destruct (Z.ltb_spec (count cyrillic) (count cjk)) as [H2|H2]
    |fold (count latin) (count cjk);
     destruct (Z.ltb_spec (count latin) (count cjk)) as [H2|H2]];
    [fold (count cjk) (count arabic);
     destruct (Z.ltb_spec (count cjk) (count arabic)) as [H3|H3]
    |fold (count cyrillic) (count arabic);
     destruct (Z.ltb_spec (count cyrillic) (count arabic)) as [H3|H3]
    |fold (count cjk) (count arabic);
     destruct (Z.ltb_spec (count cjk) (count arabic)) as [H3|H3]
    |fold (count latin) (count arabic);
     destruct (Z.ltb_spec (count latin) (count arabic)) as [H3|H3]];
    (split; [intros []; lia|]);
    repeat split; intros; try discriminate; try lia.
Qed.

Lemma filter_idem {A} (p : A -> bool) (l : list A) :
  List.filter p (List.filter p l) = List.filter p l.
Proof.
  induction l as [|x l IH]; [reflexivity|]. simpl.
  destruct (p x) eqn:E; simpl; [rewrite E, IH|]; auto.
Qed.

Lemma filter_length_le {A} (p : A -> bool) (l : list A) :
  (length (List.filter p l) <= length l)%nat.
Proof.
  induction l as [|x l IH]; [reflexivity|]. simpl.
  destruct (p x); simpl; lia.
Qed.

(** X3: only the fragments among the first 50 that lie on pages 1 to 3
    decide the script; every other fragment can be removed without
    changing the answer. *)
Theorem detect_language_window :
  forall text_blocks : list Block.t,
    detect_language text_blocks
    = detect_language
        (List.filter (fun block => Block.page block <=? 3)
                     (firstn 50 text_blocks)).
Proof.
  intros text_blocks. unfold detect_language, sample_text.
  set (p := fun block => Block.page block <=? 3).
  rewrite (firstn_all2 (n := 50) (List.filter p (firstn 50 text_blocks))).
  - now rewrite filter_idem.
  - etransitivity; [apply filter_length_le|]. apply firstn_le_length.
Qed.

(** X1, witness: the flags 16 (bold) with the italic bit 2 ^ 1 added. *)
Lemma is_bold_bit4_witness :
  is_bold (Z.lor 16 (2 ^ 1)) = is_bold 16
  /\ is_bold (Z.ldiff 16 (2 ^ 1)) = is_bold 16.
Proof. apply (proj2 (is_bold_bit4 16) 1); lia. Defined.

(** ** More on the classifier *)

Lemma score_level_bold (sc : Z) :
  match score_level sc with
  | Some H1 => score_level (sc + 2) = Some H1
  | Some H2 => score_level (sc + 2) = Some H1
  | Some H3 => score_level (sc + 2) = Some H2
  | None => score_level (sc + 2) <> Some H1
  end.
Proof.
  unfold score_level.
  destruct (Z.leb_spec 6 sc), (Z.leb_spec 4 sc), (Z.leb_spec 3 sc),
    (Z.leb_spec 6 (sc + 2)), (Z.leb_spec 4 (sc + 2)),
    (Z.leb_spec 3 (sc + 2)); try lia; try reflexivity; discriminate.
Qed.

(** X4: setting the bold flag never lowers a classification.  A text that
    is H1 without bold is H1 with bold; one that is H2 is H2 or H1; one that
    is H3 is H3 or H2; and a text that is no heading with bold is no
    heading without. *)
Theorem bold_never_demotes :
  forall (text : str) (font_size avg_font_size max_font_size : float)
         (language : Script),
    let plain := classify_heading_level text font_size false avg_font_size
                   max_font_size language in
    let bold := classify_heading_level text font_size true avg_font_size
                  max_font_size language in
    (plain = Some H1 -> bold = Some H1)
    /\ (plain = Some H2 -> bold = Some H1 \/ bold = Some H2)
    /\ (plain = Some H3 -> bold = Some H2 \/ bold = Some H3)
    /\ (bold = None -> plain = None).
Proof.
  intros text font_size avg_font_size max_font_size language plain bold.
  subst plain bold. unfold classify_heading_level.
  destruct (is_likely_non_heading text); [repeat split; discriminate|].
  destruct (numbered_level text) as [[| |]|];
    [repeat split; intros; try discriminate; auto ..|].
  destruct (family_eqb _ chapter_section);
    [repeat split; intros; try discriminate; auto|].
  unfold score, bold_score. rewrite Z.add_0_r.
  set (sc := pattern_score _ + ratio_score _).
  pose proof (score_level_bold sc) as H.
  destruct (score_level sc) as [[| |]|], (score_level (sc + 2)) as [[| |]|];
    repeat split; intros; try discriminate; try congruence; auto.
Qed.

(** X4, witness: "ÉTUDE" at the average font size is H3 without bold;
    with bold it is H2 or H3. *)
Lemma bold_never_demotes_witness :
  classify_heading_level (u "ÉTUDE") 10 false 10 10 latin = Some H3
  /\ (classify_heading_level (u "ÉTUDE") 10 true 10 10 latin = Some H2
      \/ classify_heading_level (u "ÉTUDE") 10 true 10 10 latin = Some H3).
Proof.
  assert (Hp : classify_heading_level (u "ÉTUDE") 10 false 10 10 latin
               = Some H3) by (vm_compute; reflexivity).
  split; [exact Hp|].
  exact (proj1 (proj2 (proj2 (bold_never_demotes (u "ÉTUDE") 10 10 10
                                latin))) Hp).
Defined.

(** No ASCII letter is a decimal digit. *)
Lemma ascii_letter_not_decimal (c : Z) :
  ascii_letter c -> isdecimal c = false.
Proof.
  intros Hc.
  assert (Hall : forallb (fun x => negb (isdecimal x))
                   (map Z.of_nat (seq 0x41 26 ++ seq 0x61 26)) = true)
    by (vm_compute; reflexivity).
  rewrite forallb_forall in Hall. apply negb_true_iff, Hall.
  replace c with (Z.of_nat (Z.to_nat c)) by (destruct Hc; lia).
  apply in_map, in_or_app.
  destruct Hc; [left|right]; apply in_seq; lia.
Qed.

(** A pattern that starts with [^\d+] matches no text that starts with
    another character. *)
Lemma no_digit_no_match (c : Z) (rest : str) (tail : list regex) :
  isdecimal c = false ->
  re_match (Seqs (Bol :: Plus (Chr d) :: tail)) (c :: rest) = false.
Proof.
  intros Hd. unfold re_match, Seqs. cbn [fold_right run fst Nat.eqb flat_map].
  unfold Plus. cbn [run snd]. unfold d. rewrite Hd. reflexivity.
Qed.

Lemma numbered_level_no_digit (c : Z) (rest : str) :
  isdecimal c = false -> numbered_level (c :: rest) = None.
Proof.
  intros Hd. unfold numbered_level, re_level1, re_level2, re_level3.
  now rewrite !no_digit_no_match.
Qed.

Lemma ratio_score_range (r : float) : 0 <= ratio_score r <= 4.
Proof.
  unfold ratio_score.
  destruct (1.8 <? r)%float, (1.5 <? r)%float, (1.2 <? r)%float,
    (1.1 <? r)%float; lia.
Qed.

(** The score of an accepted text that starts with a letter decides its
    level, and starts from the 4 points of the [numbered] family. *)
Lemma letter_first_score (c : Z) (rest : str) (font_size : float)
      (is_bold : bool) (avg_font_size max_font_size : float)
      (language : Script) :
  ascii_letter c ->
  ~ In 0x0A (removelast (c :: rest)) ->
  is_likely_non_heading (c :: rest) = false ->
  classify_heading_level (c :: rest) font_size is_bold avg_font_size
    max_font_size language
  = score_level (4 + ratio_score (font_size_ratio font_size avg_font_size)
                 + bold_score is_bold).
Proof.
  intros Hc Hlf Ha.
  assert (Hf : matches_heading_pattern (c :: rest) language
               = (true, numbered)).
  { eapply family_numbered; [apply re_alphabetic_numbered|].
    now apply re_alphabetic_matches. }
  assert (Hn : numbered_level (c :: rest) = None)
    by now apply numbered_level_no_digit, ascii_letter_not_decimal.
  rewrite classify_score; [|assumption|assumption|].
  - now rewrite Hf.
  - rewrite Hf. discriminate.
Qed.

Lemma score_level_from_4 (r : float) (is_bold : bool) :
  let sc := 4 + ratio_score r + bold_score is_bold in
  (score_level sc = Some H1 \/ score_level sc = Some H2)
  /\ (score_level sc = Some H1 <-> 2 <= ratio_score r + bold_score is_bold).
Proof.
  intros sc. pose proof (ratio_score_range r).
  assert (0 <= bold_score is_bold) by (destruct is_bold; simpl; lia).
  destruct (score_level_spec sc) as (S1 & S2 & _).
  assert (4 <= sc) by (subst sc; lia).
  split.
  - destruct (Z.le_gt_cases 6 sc); [left; now apply S1|right; apply S2; lia].
  - rewrite S1. subst sc. lia.
Qed.

(** X5: a text that starts with an ASCII letter, has no line feed before
    its last character and passes the filter is always a heading, H1 or
    H2, whatever its font size and boldness; it is H1 exactly when the
    points of the font ratio and of the bold flag add up to at least 2. *)
Theorem letter_first_is_heading :
  forall (text : str) (c : Z) (rest : str) (font_size : float)
         (is_bold : bool) (avg_font_size max_font_size : float)
         (language : Script),
    text = c :: rest ->
    ascii_letter c ->
    ~ In 0x0A (removelast text) ->
    is_likely_non_heading text = false ->
    let level := classify_heading_level text font_size is_bold
                   avg_font_size max_font_size language in
    (level = Some H1 \/ level = Some H2)
    /\ (level = Some H1 <->
        2 <= ratio_score (font_size_ratio font_size avg_font_size)
             + bold_score is_bold).
Proof.
  intros text c rest font_size is_bold avg_font_size max_font_size language
         -> Hc Hlf Ha level.
  subst level. rewrite letter_first_score by assumption.
  apply score_level_from_4.
Qed.

(** X5, witness: "Overview of the results" at the average font size and
    not bold is H2. *)
Lemma letter_first_is_heading_witness :
  classify_heading_level (u "Overview of the results") 10 false 10 10 latin
  = Some H1
  \/ classify_heading_level (u "Overview of the results") 10 false 10 10
       latin = Some H2.
Proof.
  refine (proj1 (letter_first_is_heading (u "Overview of the results")
                   0x4F (u "verview of the results") 10 false 10 10 latin
                   _ _ _ _)).
  - reflexivity.
  - left. lia.
  - vm_compute. intuition discriminate.
  - vm_compute; reflexivity.
Defined.

(** ** More on the title selector *)

Lemma lstrip_suffix (t : str) : exists w, t = w ++ lstrip t.
Proof.
  induction t as [|c t (w & IH)]; [now exists []|]. simpl.
  destruct (isspace c); [|now exists []].
  exists (c :: w). simpl. now rewrite <- IH.
Qed.

Lemma lstrip_fixed (c : Z) (t : str) :
  isspace c = false -> lstrip (c :: t) = c :: t.
Proof. intros H. simpl. now rewrite H. Qed.

Lemma lstrip_head (t : str) (c : Z) (r : str) :
  lstrip t = c :: r -> isspace c = false.
Proof.
  induction t as [|x t IH]; [discriminate|]. simpl.
  destruct (isspace x) eqn:E; [exact IH|]. intros H. injection H as <- _.
  exact E.
Qed.

Lemma lstrip_idem (t : str) : lstrip (lstrip t) = lstrip t.
Proof.
  destruct (lstrip t) as [|c r] eqn:E; [reflexivity|].
  apply lstrip_fixed. eapply lstrip_head, E.
Qed.

(** [strip] leaves nothing more to strip. *)
Lemma strip_idem (t : str) : strip (strip t) = strip t.
Proof.
  unfold strip. set (a := lstrip t). set (v := lstrip (rev a)).
  assert (Hl : lstrip (rev v) = rev v).
  { destruct (rev v) as [|c r] eqn:E; [reflexivity|].
    apply lstrip_fixed.
    destruct (lstrip_suffix (rev a)) as (w & Hw). fold v in Hw.
    apply (f_equal (@rev Z)) in Hw.
    rewrite rev_involutive, rev_app_distr, E in Hw. simpl in Hw.
    eapply lstrip_head. unfold a in Hw. exact Hw. }
  rewrite Hl, rev_involutive. unfold v at 1. now rewrite lstrip_idem.
Qed.

Lemma scan_title_some (blocks : list Block.t) (t : str) :
  scan_title blocks = Some t ->
  exists b, In b blocks /\ t = strip (Block.text b)
            /\ is_likely_non_heading t = false /\ 5 < len t < 150.
Proof.
  induction blocks as [|b blocks IH]; [discriminate|]. simpl.
  destruct (is_likely_non_heading (strip (Block.text b))) eqn:Ha.
  { intros H. destruct (IH H) as (b' & Hb' & R). exists b'. auto. }
  destruct (re_match re_page_marker (strip (Block.text b))).
  { intros H. destruct (IH H) as (b' & Hb' & R). exists b'. auto. }
  destruct (Z.ltb_spec 5 (len (strip (Block.text b)))),
    (Z.ltb_spec (len (strip (Block.text b))) 150),
    (re_match re_numbered_start (strip (Block.text b))); simpl;
    try (intros Hs; destruct (IH Hs) as (b' & Hb' & R); exists b';
         now auto).
  intros Hs. injection Hs as <-. exists b. auto.
Qed.

Lemma scan_substantial_some (blocks : list Block.t) (t : str) :
  scan_substantial blocks = Some t ->
  exists b, In b blocks /\ t = strip (Block.text b) /\ 10 < len t < 100.
Proof.
  induction blocks as [|b blocks IH]; [discriminate|]. simpl.
  destruct (Z.ltb_spec 10 (len (strip (Block.text b)))),
    (Z.ltb_spec (len (strip (Block.text b))) 100); simpl;
    try (intros Hs; destruct (IH Hs) as (b' & Hb' & R); exists b';
         now auto).
  intros Hs. injection Hs as <-. exists b. auto.
Qed.

(** Where the title comes from and how it was found. *)
Lemma extract_title_cases (text_blocks : list Block.t) (language : Script) :
  let t := extract_title text_blocks language in
  t = untitled
  \/ exists b, In b text_blocks /\ Block.page b <= 2
               /\ t = strip (Block.text b)
               /\ (5 < len t < 150 /\ is_likely_non_heading t = false
                   \/ 10 < len t < 100).
Proof.
  cbv zeta. unfold extract_title.
  set (p := fun block => Block.page block <=? 2).
  destruct (List.filter p text_blocks) as [|b0 l0] eqn:Hf; [now left|].
  set (sorted := py_sorted title_key float_pair_ltb (b0 :: l0)).
  assert (Hin : forall b, In b sorted ->
                          In b text_blocks /\ Block.page b <= 2).
  { intros b Hb. apply (Permutation_in _ (py_sorted_perm _ _ _)) in Hb.
    rewrite <- Hf in Hb. apply filter_In in Hb as (Hb & Hp).
    split; [exact Hb|]. unfold p in Hp. lia. }
  destruct (scan_title (firstn 15 sorted)) as [t|] eqn:H1.
  - right. apply scan_title_some in H1 as (b & Hb & -> & Ha & Hl).
    apply in_firstn, Hin in Hb as (Hb & Hp). exists b. auto 6.
  - destruct (scan_substantial sorted) as [t|] eqn:H2; [|now left].
    right. apply scan_substantial_some in H2 as (b & Hb & -> & Hl).
    apply Hin in Hb as (Hb & Hp). exists b. auto 6.
Qed.

(** X6: when no fragment lies on page 1 or 2, in particular when there is
    no fragment, the title is "Untitled Document". *)
Theorem title_untitled_without_first_pages :
  forall (text_blocks : list Block.t) (language : Script),
    (forall b, In b text_blocks -> 2 < Block.page b) ->
    extract_title text_blocks language = u "Untitled Document".
Proof.
  intros text_blocks language H. unfold extract_title.
  replace (List.filter _ text_blocks) with (@nil Block.t); [reflexivity|].
  symmetry. induction text_blocks as [|b l IH]; [reflexivity|]. simpl.
  destruct (Z.leb_spec (Block.page b) 2) as [Hp|Hp].
  - specialize (H b (or_introl eq_refl)). lia.
  - apply IH. intros b' Hb'. apply H. now right.
Qed.

(** X6, witness: a document whose only fragment is on page 3. *)
Lemma title_untitled_without_first_pages_witness :
  extract_title
    [Block.mk (u "Annual Report 2024") 3 24 0 (u "Helvetica")
              (72, 10, 300, 34)%float] latin
  = u "Untitled Document".
Proof.
  apply title_untitled_without_first_pages.
  intros b [<-|[]]. simpl. lia.
Defined.

(** X7: the title is "Untitled Document" or the trimmed text of a fragment
    of page 1 or 2. *)
Theorem title_source :
  forall (text_blocks : list Block.t) (language : Script),
    extract_title text_blocks language = u "Untitled Document"
    \/ exists b, In b text_blocks /\ Block.page b <= 2
                 /\ extract_title text_blocks language
                    = strip (Block.text b).
Proof.
  intros text_blocks language.
  destruct (extract_title_cases text_blocks language)
    as [H|(b & Hb & Hp & Ht & _)]; [now left|right; eauto].
Qed.

(** X8: the title always has more than 5 and fewer than 150 characters and
    neither starts nor ends with white space. *)
Theorem title_shape :
  forall (text_blocks : list Block.t) (language : Script),
    5 < len (extract_title text_blocks language) < 150
    /\ strip (extract_title text_blocks language)
       = extract_title text_blocks language.
Proof.
  intros text_blocks language.
  destruct (extract_title_cases text_blocks language)
    as [H|(b & Hb & Hp & Ht & Hl)].
  - rewrite H. split; [vm_compute; split; reflexivity|].
    vm_compute; reflexivity.
  - split; [lia|]. rewrite Ht. apply strip_idem.
Qed.

(** *** Ranking by font size *)

Lemma SFcompare_swap (a b : spec_float) :
  SFcompare b a = option_map CompOpp (SFcompare a b).
Proof.
  destruct a as [sa|sa| |sa ma ea], b as [sb|sb| |sb mb eb]; simpl;
    try reflexivity; try (destruct sa; reflexivity);
    try (destruct sb; reflexivity);
    try (destruct sa, sb; reflexivity).
  rewrite (Z.compare_antisym ea eb).
  change (Pos.compare_cont Eq mb ma) with (Pos.compare mb ma).
  change (Pos.compare_cont Eq ma mb) with (Pos.compare ma mb).
  rewrite (Pos.compare_antisym ma mb).
  destruct sa, sb, (Z.compare ea eb), (Pos.compare ma mb); reflexivity.
Qed.

Lemma SFcompare_opp (a b : spec_float) :
  SFcompare (SFopp a) (SFopp b) = SFcompare b a.
Proof.
  destruct a as [sa|sa| |sa ma ea], b as [sb|sb| |sb mb eb]; simpl;
    try reflexivity; try (destruct sa; reflexivity);
    try (destruct sb; reflexivity);
    try (destruct sa, sb; reflexivity).
  rewrite (Z.compare_antisym ea eb).
  change (Pos.compare_cont Eq mb ma) with (Pos.compare mb ma).
  change (Pos.compare_cont Eq ma mb) with (Pos.compare ma mb).
  rewrite (Pos.compare_antisym ma mb).
  destruct sa, sb, (Z.compare ea eb), (Pos.compare ma mb); reflexivity.
Qed.

(** A fragment with a strictly larger font has a strictly smaller key. *)
Lemma title_key_larger_font (b y : Block.t) :
  (Block.font_size y <? Block.font_size b)%float = true ->
  float_pair_ltb (title_key b) (title_key y) = true
  /\ float_pair_ltb (title_key y) (title_key b) = false.
Proof.
  intros H. unfold float_pair_ltb, title_key. cbn [fst snd].
  rewrite FloatAxioms.ltb_spec in H. unfold SFltb in H.
  rewrite !FloatAxioms.eqb_spec, !FloatAxioms.ltb_spec, !FloatAxioms.opp_spec.
  unfold SFeqb, SFltb. rewrite !SFcompare_opp.
  rewrite (SFcompare_swap (Prim2SF (Block.font_size y))
                          (Prim2SF (Block.font_size b))).
  destruct (SFcompare (Prim2SF (Block.font_size y))
                      (Prim2SF (Block.font_size b))) as [[| |]|];
    try discriminate. simpl. auto.
Qed.

(** An element whose key is strictly first is the head of the sorted
    list. *)
Lemma py_sorted_head {A K} (key : A -> K) (lt : K -> K -> bool)
      (pre post : list A) (b : A) :
  (forall y, In y (pre ++ post) ->
             lt (key b) (key y) = true /\ lt (key y) (key b) = false) ->
  py_sorted key lt (pre ++ b :: post) = b :: py_sorted key lt (pre ++ post).
Proof.
  induction pre as [|x pre IH]; intros H.
  - simpl in *. destruct (py_sorted key lt post) as [|y s] eqn:E;
      [reflexivity|]. simpl.
    assert (Hy : In y post).
    { apply (Permutation_in _ (py_sorted_perm key lt post)).
      rewrite E. now left. }
    now rewrite (proj2 (H y Hy)).
  - simpl. rewrite IH by (intros y Hy; apply H; now right).
    simpl. now rewrite (proj1 (H x (or_introl eq_refl))).
Qed.

(** X9: when one fragment of pages 1 and 2 has a strictly larger font size
    than every other one and passes the four checks of the first loop, its
    trimmed text is the title, wherever it stands on the page. *)
Theorem title_is_largest_font :
  forall (text_blocks : list Block.t) (language : Script)
         (before after : list Block.t) (block : Block.t),
    List.filter (fun b => Block.page b <=? 2) text_blocks
    = before ++ block :: after ->
    (forall b, In b (before ++ after) ->
               (Block.font_size b <? Block.font_size block)%float = true) ->
    is_likely_non_heading (strip (Block.text block)) = false ->
    re_match re_page_marker (strip (Block.text block)) = false ->
    re_match re_numbered_start (strip (Block.text block)) = false ->
    5 < len (strip (Block.text block)) < 150 ->
    extract_title text_blocks language = strip (Block.text block).
Proof.
  intros text_blocks language before after block Hf Hsmall Ha Hp Hn Hl.
  unfold extract_title. rewrite Hf.
  destruct (before ++ block :: after) as [|b0 l0] eqn:E;
    [now destruct before|]. rewrite <- E.
  rewrite py_sorted_head
    by (intros y Hy; apply title_key_larger_font, Hsmall, Hy).
  cbn [firstn]. now rewrite scan_title_hit.
Qed.

(** X9, witness: the page marker stands above the title but has the
    smaller font. *)
Lemma title_is_largest_font_witness :
  extract_title
    [Block.mk (u "Page 1") 1 10 0 (u "Helvetica") (72, 5, 300, 15)%float;
     Block.mk (u "Annual Report 2024") 1 24 0 (u "Helvetica")
              (72, 10, 300, 34)%float;
     Block.mk (u "Appendix") 7 30 0 (u "Helvetica")
              (72, 10, 300, 40)%float]
    latin
  = u "Annual Report 2024".
Proof.
  refine (title_is_largest_font _ latin
            [Block.mk (u "Page 1") 1 10 0 (u "Helvetica")
                      (72, 5, 300, 15)%float]
            []
            (Block.mk (u "Annual Report 2024") 1 24 0 (u "Helvetica")
                      (72, 10, 300, 34)%float)
            _ _ _ _ _ _).
  - reflexivity.
  - intros b [<-|[]]. reflexivity.
  - vm_compute; reflexivity.
  - vm_compute; reflexivity.
  - vm_compute; reflexivity.
  - vm_compute. split; reflexivity.
Defined.

(** ** More on the outline builder *)

Section Stability.
Context {A K : Type} (key : A -> K) (lt : K -> K -> bool) (p : A -> bool).
Hypothesis same_key :
  forall x y, p x = true -> p y = true -> lt (key y) (key x) = false.

Lemma insert_sorted_filter (x : A) (l : list A) :
  List.filter p (insert_sorted key lt x l) = List.filter p (x :: l).
Proof.
  induction l as [|y l IH]; [reflexivity|]. simpl.
  destruct (lt (key y) (key x)) eqn:E; [|reflexivity].
  simpl. rewrite IH. simpl.
  destruct (p x) eqn:Px, (p y) eqn:Py; try reflexivity.
  rewrite (same_key x y Px Py) in E. discriminate.
Qed.

(** The elements selected by [p], which have equal keys, keep their
    order. *)
Lemma py_sorted_filter (l : list A) :
  List.filter p (py_sorted key lt l) = List.filter p l.
Proof.
  induction l as [|x l IH]; [reflexivity|]. simpl.
  rewrite insert_sorted_filter. simpl. now rewrite IH.
Qed.

End Stability.

Lemma collected (text_blocks : list Block.t) :
  collect_headings text_blocks
  = fst (fold_left
           (heading_step (average (map Block.font_size text_blocks))
                         (maximum (map Block.font_size text_blocks))
                         (detect_language text_blocks))
           text_blocks ([], ∅)).
Proof. reflexivity. Qed.

(** X10: the sort is stable.  For every page and level, the entries of the
    outline with this page and level are, in this order, the first of the
    accepted headings with this page and level in scan order, and all of
    them when at most 100 headings were accepted. *)
Theorem outline_keeps_scan_order :
  forall (text_blocks : list Block.t) (page : Z) (level : Level),
    let same e :=
      (Entry.page e =? page)
      && str_eqb (level_str (Entry.level e)) (level_str level) in
    exists dropped,
      List.filter same (collect_headings text_blocks)
      = List.filter same (outline (extract_outline text_blocks)) ++ dropped
      /\ ((length (collect_headings text_blocks) <= 100)%nat ->
          dropped = []).
Proof.
  intros text_blocks page level same. rewrite outline_extract.
  set (sorted := sort_outline (collect_headings text_blocks)).
  exists (List.filter same (skipn 100 sorted)). split.
  - rewrite <- List.filter_app, firstn_skipn. subst sorted. symmetry.
    apply py_sorted_filter. intros x y Hx Hy. subst same. cbv beta in *.
    apply andb_true_iff in Hx as (Px & Lx), Hy as (Py & Ly).
    apply Z.eqb_eq in Px, Py. rewrite level_str_eqb in Lx, Ly.
    unfold key_ltb, outline_key. cbn [fst snd].
    replace (Entry.page y =? Entry.page x) with true
      by (symmetry; apply Z.eqb_eq; congruence).
    rewrite level_str_ltb.
    destruct (Entry.level x), (Entry.level y), level;
      try discriminate; reflexivity.
  - intros Hle. rewrite skipn_all2; [reflexivity|].
    subst sorted. unfold sort_outline. now rewrite py_sorted_length.
Qed.

(** X10, witness: two H2 headings of page 1 met after an H2 heading of
    page 2 come out in the order in which they were met. *)
Lemma outline_keeps_scan_order_witness :
  let blocks :=
    [Block.mk (u "2.1 Results") 2 12 0 (u "Helvetica")
              (72, 10, 300, 20)%float;
     Block.mk (u "1.2 Scope") 1 12 0 (u "Helvetica")
              (72, 40, 300, 50)%float;
     Block.mk (u "1.1 Goals") 1 12 0 (u "Helvetica")
              (72, 10, 300, 20)%float] in
  List.filter
    (fun e => (Entry.page e =? 1)
              && str_eqb (level_str (Entry.level e)) (level_str H2))
    (outline (extract_outline blocks))
  = [Entry.mk H2 (u "1.2 Scope") 1; Entry.mk H2 (u "1.1 Goals") 1].
Proof.
  intros blocks.
  destruct (outline_keeps_scan_order blocks 1 H2) as (dropped & He & Hd).
  assert (Hle : (length (collect_headings blocks) <= 100)%nat)
    by (apply Nat.leb_le; vm_compute; reflexivity).
  rewrite (Hd Hle), app_nil_r in He. cbv zeta in He. rewrite <- He.
  vm_compute; reflexivity.
Defined.

(** X11: when at most 100 headings are accepted nothing is dropped: the
    outline is a rearrangement of the accepted headings. *)
Theorem outline_complete_below_limit :
  forall text_blocks : list Block.t,
    (length (collect_headings text_blocks) <= 100)%nat ->
    Permutation (outline (extract_outline text_blocks))
                (collect_headings text_blocks).
Proof.
  intros text_blocks Hle. rewrite outline_extract.
  rewrite firstn_all2.
  - apply py_sorted_perm.
  - unfold sort_outline. now rewrite py_sorted_length.
Qed.

(** X11, witness: three accepted headings, three entries. *)
Lemma outline_complete_below_limit_witness :
  Permutation
    (outline (extract_outline
       [Block.mk (u "2.1 Results") 2 12 0 (u "Helvetica")
                 (72, 10, 300, 20)%float;
        Block.mk (u "1.2 Scope") 1 12 0 (u "Helvetica")
                 (72, 40, 300, 50)%float;
        Block.mk (u "1.1 Goals") 1 12 0 (u "Helvetica")
                 (72, 10, 300, 20)%float]))
    (collect_headings
       [Block.mk (u "2.1 Results") 2 12 0 (u "Helvetica")
                 (72, 10, 300, 20)%float;
        Block.mk (u "1.2 Scope") 1 12 0 (u "Helvetica")
                 (72, 40, 300, 50)%float;
        Block.mk (u "1.1 Goals") 1 12 0 (u "Helvetica")
                 (72, 10, 300, 20)%float]).
Proof.
  apply outline_complete_below_limit.
  apply Nat.leb_le. vm_compute; reflexivity.
Defined.

(** X12: every fragment that classifies as a heading is represented: its
    trimmed text is the text of an accepted heading, and of an entry of the
    outline when at most 100 headings were accepted. *)
Theorem accepted_fragment_is_listed :
  forall (text_blocks : list Block.t) (block : Block.t),
    let font_sizes := map Block.font_size text_blocks in
    In block text_blocks ->
    classify_heading_level (strip (Block.text block))
      (Block.font_size block) (is_bold (Block.font_flags block))
      (average font_sizes) (maximum font_sizes)
      (detect_language text_blocks) <> None ->
    In (strip (Block.text block))
       (map Entry.text (collect_headings text_blocks))
    /\ ((length (collect_headings text_blocks) <= 100)%nat ->
        In (strip (Block.text block))
           (map Entry.text (outline (extract_outline text_blocks)))).
Proof.
  intros text_blocks block font_sizes Hin Hc.
  pose proof (collect_invariant (average font_sizes) (maximum font_sizes)
                (detect_language text_blocks) text_blocks) as H.
  cbv zeta in H. destruct H as (Hseen & _ & Hall & _).
  assert (Ht : In (strip (Block.text block))
                  (map Entry.text (collect_headings text_blocks))).
  { rewrite collected. apply Hseen, Hall; assumption. }
  split; [exact Ht|]. intros Hle.
  eapply Permutation_in; [|exact Ht].
  apply Permutation_map. symmetry. rewrite outline_extract.
  rewrite firstn_all2; [apply py_sorted_perm|].
  unfold sort_outline. now rewrite py_sorted_length.
Qed.

(** X12, witness: "1.1 Goals" met twice is listed. *)
Lemma accepted_fragment_is_listed_witness :
  let blocks :=
    [Block.mk (u "1.1 Goals") 1 12 0 (u "Helvetica")
              (72, 10, 300, 20)%float;
     Block.mk (u " 1.1 Goals ") 4 12 0 (u "Helvetica")
              (72, 10, 300, 20)%float] in
  In (u "1.1 Goals") (map Entry.text (collect_headings blocks)).
Proof.
  intros blocks.
  refine (proj1 (accepted_fragment_is_listed blocks
                   (Block.mk (u " 1.1 Goals ") 4 12 0 (u "Helvetica")
                             (72, 10, 300, 20)%float) _ _)).
  - right. left. reflexivity.
  - vm_compute. discriminate.
Defined.

(** X13: the text of every entry of the outline passes the filter, has
    between 3 and 200 characters and neither starts nor ends with white
    space. *)
Theorem outline_entry_shape :
  forall (text_blocks : list Block.t) (e : Entry.t),
    In e (outline (extract_outline text_blocks)) ->
    is_likely_non_heading (Entry.text e) = false
    /\ 3 <= len (Entry.text e) <= 200
    /\ strip (Entry.text e) = Entry.text e.
Proof.
  intros text_blocks e He. rewrite outline_extract in He.
  apply in_firstn in He.
  apply (Permutation_in _ (py_sorted_perm _ _ _)) in He.
  rewrite collected in He.
  pose proof (collect_invariant
                (average (map Block.font_size text_blocks))
                (maximum (map Block.font_size text_blocks))
                (detect_language text_blocks) text_blocks) as H.
  cbv zeta in H. destruct H as (_ & _ & _ & Hfirst).
  destruct (Hfirst e He) as (pre & b & post & _ & Ht & _ & Hl & _).
  rewrite Ht.
  assert (Ha : is_likely_non_heading (strip (Block.text b)) = false).
  { destruct (is_likely_non_heading (strip (Block.text b))) eqn:E;
      [|reflexivity].
    rewrite classify_rejected in Hl by exact E. discriminate. }
  split; [exact Ha|]. split; [|apply strip_idem].
  unfold is_likely_non_heading in Ha.
  destruct (has_non_heading_word _); [discriminate|].
  destruct (bad_length (strip (Block.text b))) eqn:Hb; [discriminate|].
  unfold bad_length in Hb. apply orb_false_iff in Hb as (H1 & H2).
  apply Z.ltb_ge in H1, H2. lia.
Qed.

(** X13, witness: the entry of " 1.1 Goals ". *)
Lemma outline_entry_shape_witness :
  3 <= len (u "1.1 Goals") <= 200.
Proof.
  refine (proj1 (proj2 (outline_entry_shape
            [Block.mk (u " 1.1 Goals ") 4 12 0 (u "Helvetica")
                      (72, 10, 300, 20)%float]
            (Entry.mk H2 (u "1.1 Goals") 4) _))).
  vm_compute. left. reflexivity.
Defined.

(** * Properties of the ingestion *)

Import Ingestion.

(** ** White space *)

Lemma sub_spaces_from_spaces (flag : bool) (t : str) (c : Z) :
  In c (sub_spaces_from flag t) -> isspace c = true -> c = 0x20.
Proof.
  revert flag. induction t as [|x t IH]; intros flag; [easy|]. simpl.
  destruct (isspace x) eqn:E.
  - destruct flag; [apply (IH true)|].
    intros [<-|H]; [reflexivity|]. now apply (IH true).
  - intros [<-|H] Hc; [congruence|]. now apply (IH false).
Qed.

(** After white space, the output resumes with the next character that is
    no white space, if the text does not end in white space. *)
Lemma sub_spaces_from_resume (t : str) :
  t <> [] ->
  (forall pre x, t = pre ++ [x] -> isspace x = false) ->
  exists c r, sub_spaces_from true t = c :: r /\ isspace c = false.
Proof.
  induction t as [|x t IH]; [easy|]. intros _ Hend. simpl.
  destruct (isspace x) eqn:E; [|eauto].
  destruct t as [|y t].
  - rewrite (Hend [] x eq_refl) in E. discriminate.
  - apply IH; [easy|]. intros pre z H. apply (Hend (x :: pre) z).
    simpl. now rewrite H.
Qed.

Lemma sub_spaces_from_separated (flag : bool) (t : str) :
  (forall pre x, t = pre ++ [x] -> isspace x = false) ->
  forall a b, sub_spaces_from flag t = a ++ 0x20 :: b ->
              exists c b', b = c :: b' /\ isspace c = false.
Proof.
  revert flag. induction t as [|x t IH]; intros flag Hend a b H.
  - now destruct a.
  - assert (Hend' : t <> [] ->
                    forall pre z, t = pre ++ [z] -> isspace z = false).
    { intros _ pre z Hz. apply (Hend (x :: pre) z). simpl. now rewrite Hz. }
    simpl in H. destruct (isspace x) eqn:E.
    + assert (Ht : t <> []).
      { intros ->. rewrite (Hend [] x eq_refl) in E. discriminate. }
      destruct flag; [exact (IH true (Hend' Ht) a b H)|].
      destruct a as [|y a]; simpl in H.
      * assert (H2 : sub_spaces_from true t = b) by congruence.
        rewrite <- H2.
        apply sub_spaces_from_resume; [exact Ht|exact (Hend' Ht)].
      * assert (H2 : sub_spaces_from true t = a ++ 0x20 :: b)
          by congruence.
        exact (IH true (Hend' Ht) a b H2).
    + destruct a as [|y a]; simpl in H.
      * assert (x = 0x20) by congruence. subst x. discriminate E.
      * assert (H2 : sub_spaces_from false t = a ++ 0x20 :: b)
          by congruence.
        destruct t as [|y' t']; [now destruct a|].
        apply (IH false (Hend' ltac:(easy)) a b H2).
Qed.

Lemma strip_end (t : str) (pre : str) (x : Z) :
  strip t = pre ++ [x] -> isspace x = false.
Proof.
  unfold strip. intros H. apply (f_equal (@rev Z)) in H.
  rewrite rev_involutive, rev_app_distr in H. simpl in H.
  eapply lstrip_head, H.
Qed.

Lemma strip_start (t : str) (c : Z) (r : str) :
  strip t = c :: r -> isspace c = false.
Proof.
  unfold strip. intros H.
  destruct (lstrip_suffix (rev (lstrip t))) as (w & Hw).
  apply (f_equal (@rev Z)) in Hw.
  rewrite rev_involutive, rev_app_distr, H in Hw. simpl in Hw.
  eapply lstrip_head, Hw.
Qed.

(** X14: [normalize_text] hands to the NFKC normalisation a text in which
    the only white space is the single space, every space is followed by a
    character that is no white space, and the first character is no white
    space: runs of blanks, tabs and line breaks are collapsed and the ends
    are trimmed. *)
Theorem normalize_text_collapses :
  forall (nfkc : str -> str) (text : str),
  exists w : str,
    normalize_text nfkc text = nfkc w
    /\ (forall c, In c w -> isspace c = true -> c = 0x20)
    /\ (forall a b, w = a ++ 0x20 :: b ->
                    exists c b', b = c :: b' /\ isspace c = false)
    /\ (forall c r, w = c :: r -> isspace c = false)
    /\ ~ In 0x0A w.
Proof.
  intros nfkc text. exists (sub_spaces (strip text)).
  assert (P1 : forall c, In c (sub_spaces (strip text)) ->
                         isspace c = true -> c = 0x20)
    by (intros c; apply sub_spaces_from_spaces).
  split; [reflexivity|]. split; [exact P1|]. split; [|split].
  - apply sub_spaces_from_separated. intros pre x. apply strip_end.
  - unfold sub_spaces. intros c r H.
    destruct (strip text) as [|x t] eqn:E; [discriminate|].
    simpl in H. rewrite (strip_start _ _ _ E) in H.
    injection H as <- _. exact (strip_start _ _ _ E).
  - intros H. specialize (P1 _ H eq_refl). discriminate.
Qed.

(** ** Fragments *)

Section Fragments.
Variable nfkc : str -> str.

Lemma span_block_in (page_num : Z) (span : Span.t) (b : Block.t) :
  In b (span_block nfkc page_num span) ->
  Block.page b = page_num + 1
  /\ Block.text b = normalize_text nfkc (Span.text span)
  /\ Block.text b <> []
  /\ Block.font_size b = Span.size span
  /\ Block.font_flags b = Span.flags span.
Proof.
  unfold span_block.
  destruct (normalize_text nfkc (Span.text span)) as [|c t] eqn:E; [easy|].
  intros [<-|[]]. simpl. repeat split; easy.
Qed.

Lemma block_blocks_in (page_num : Z) (block : option (list (list Span.t)))
      (b : Block.t) :
  In b (block_blocks nfkc page_num block) ->
  exists lines line span,
    block = Some lines /\ In line lines /\ In span line
    /\ In b (span_block nfkc page_num span).
Proof.
  destruct block as [lines|]; [|easy]. simpl. intros H.
  apply in_flat_map in H as (line & Hl & H).
  apply in_flat_map in H as (span & Hs & H).
  exists lines, line, span. auto.
Qed.

Lemma page_blocks_in (page_num : Z)
      (pages : list (list (option (list (list Span.t))))) (b : Block.t) :
  In b (page_blocks nfkc page_num pages) ->
  page_num + 1 <= Block.page b <= page_num + Z.of_nat (length pages)
  /\ exists span, Block.text b = normalize_text nfkc (Span.text span)
                  /\ Block.text b <> [].
Proof.
  revert page_num. induction pages as [|page rest IH]; intros n; [easy|].
  simpl. intros H. apply in_app_or in H as [H|H].
  - apply in_flat_map in H as (block & _ & H).
    apply block_blocks_in in H as (lines & line & span & _ & _ & _ & H).
    apply span_block_in in H as (Hp & Ht & Hne & _).
    split; [simpl length; lia|]. eauto.
  - apply IH in H as (Hp & Hs). split; [|exact Hs].
    simpl length. lia.
Qed.

Lemma strongly_sorted_app {A} (R : A -> A -> Prop) (l k : list A) :
  StronglySorted R l -> StronglySorted R k ->
  (forall x y, In x l -> In y k -> R x y) ->
  StronglySorted R (l ++ k).
Proof.
  induction 1 as [|x l Hl IH Hx]; intros Hk Hlk; [exact Hk|]. simpl.
  constructor.
  - apply IH; [exact Hk|]. intros a b Ha Hb. apply Hlk; [now right|exact Hb].
  - apply Forall_forall. intros y Hy. apply list_elem_of_In in Hy.
    apply in_app_or in Hy as [Hy|Hy].
    + rewrite Forall_forall in Hx. now apply Hx, list_elem_of_In.
    + apply Hlk; [now left|exact Hy].
Qed.

Lemma strongly_sorted_const {A} (f : A -> Z) (k : Z) (l : list A) :
  (forall x, In x l -> f x = k) ->
  StronglySorted (fun a b => f a <= f b) l.
Proof.
  induction l as [|x l IH]; intros H; constructor.
  - apply IH. intros y Hy. apply H. now right.
  - apply Forall_forall. intros y Hy. apply list_elem_of_In in Hy.
    rewrite (H x), (H y); [lia|now right|now left].
Qed.

Lemma page_blocks_sorted (page_num : Z)
      (pages : list (list (option (list (list Span.t))))) :
  StronglySorted (fun a b => Block.page a <= Block.page b)
                 (page_blocks nfkc page_num pages).
Proof.
  revert page_num. induction pages as [|page rest IH]; intros n;
    [constructor|]. simpl.
  assert (Hn : forall b, In b (flat_map (block_blocks nfkc n) page) ->
                         Block.page b = n + 1).
  { intros b H. apply in_flat_map in H as (block & _ & H).
    apply block_blocks_in in H as (lines & line & span & _ & _ & _ & H).
    now apply span_block_in in H. }
  apply strongly_sorted_app.
  - now apply (strongly_sorted_const Block.page (n + 1)).
  - apply IH.
  - intros x y Hx Hy. rewrite (Hn x Hx).
    apply page_blocks_in in Hy. lia.
Qed.

End Fragments.

(** X15: every fragment that [extract_text_with_formatting] returns has a
    text that is not empty and a page number between 1 and the number of
    pages of the document, and the fragments come in the order of their
    pages. *)
Theorem fragments_well_formed :
  forall (nfkc : str -> str)
         (doc : list (list (option (list (list Span.t))))),
    let text_blocks := extract_text_with_formatting nfkc doc in
    (forall b, In b text_blocks ->
               Block.text b <> []
               /\ 1 <= Block.page b <= Z.of_nat (length doc))
    /\ forall (i j : nat) (bi bj : Block.t),
        (i < j)%nat ->
        nth_error text_blocks i = Some bi ->
        nth_error text_blocks j = Some bj ->
        Block.page bi <= Block.page bj.
Proof.
  intros nfkc doc text_blocks. subst text_blocks.
  unfold extract_text_with_formatting. split.
  - intros b Hb. apply page_blocks_in in Hb as (Hp & span & _ & Hne).
    split; [exact Hne|lia].
  - intros i j bi bj Hij Hi Hj.
    exact (strongly_sorted_lookup _ _ (page_blocks_sorted nfkc 0 doc)
             i j bi bj Hij Hi Hj).
Qed.

(** X15, witness: a document of two pages, the first with an image block
    and a blank span. *)
Lemma fragments_well_formed_witness :
  let span text := Span.mk (u text) 12 0 (u "Helvetica")
                           (72, 10, 300, 20)%float in
  let doc := [[None; Some [[span "   "%string; span " A  title "%string]]];
              [Some [[span "Body"%string]]]] in
  extract_text_with_formatting (fun t => t) doc
  = [Block.mk (u "A title") 1 12 0 (u "Helvetica") (72, 10, 300, 20)%float;
     Block.mk (u "Body") 2 12 0 (u "Helvetica") (72, 10, 300, 20)%float]
  /\ 1 <= 1 <= Z.of_nat (length doc).
Proof.
  intros span doc.
  assert (He : extract_text_with_formatting (fun t => t) doc
               = [Block.mk (u "A title") 1 12 0 (u "Helvetica")
                           (72, 10, 300, 20)%float;
                  Block.mk (u "Body") 2 12 0 (u "Helvetica")
                           (72, 10, 300, 20)%float])
    by (vm_compute; reflexivity).
  split; [exact He|].
  refine (proj2 (proj1 (fragments_well_formed (fun t => t) doc)
                   (Block.mk (u "A title") 1 12 0 (u "Helvetica")
                             (72, 10, 300, 20)%float) _)).
  rewrite He. now left.
Defined.

Lemma in_lstrip (t : str) (x : Z) : In x (lstrip t) -> In x t.
Proof.
  destruct (lstrip_suffix t) as (w & Hw). intros H. rewrite Hw.
  apply in_or_app. now right.
Qed.

Lemma in_strip (t : str) (x : Z) : In x (strip t) -> In x t.
Proof.
  unfold strip. intros H. apply in_rev, in_lstrip, in_rev, in_lstrip in H.
  exact H.
Qed.

(** X16: if the NFKC normalisation introduces no line feed, no fragment of
    a document contains one; so every fragment whose trimmed text starts
    with an ASCII letter is of the [numbered] family, and is H1 or H2
    whenever the filter accepts it. *)
Theorem ingested_letter_first_is_numbered :
  forall (nfkc : str -> str)
         (doc : list (list (option (list (list Span.t)))))
         (block : Block.t) (c : Z) (rest : str) (language : Script),
    (forall t, ~ In 0x0A t -> ~ In 0x0A (nfkc t)) ->
    In block (extract_text_with_formatting nfkc doc) ->
    strip (Block.text block) = c :: rest ->
    ascii_letter c ->
    ~ In 0x0A (Block.text block)
    /\ matches_heading_pattern (strip (Block.text block)) language
       = (true, numbered)
    /\ (is_likely_non_heading (strip (Block.text block)) = false ->
        forall (font_size : float) (is_bold : bool)
               (avg_font_size max_font_size : float),
          classify_heading_level (strip (Block.text block)) font_size
            is_bold avg_font_size max_font_size language = Some H1
          \/ classify_heading_level (strip (Block.text block)) font_size
               is_bold avg_font_size max_font_size language = Some H2).
Proof.
  intros nfkc doc block c rest language Hnfkc Hin Hs Hc.
  assert (Hlf : ~ In 0x0A (Block.text block)).
  { apply page_blocks_in in Hin as (_ & span & -> & _).
    apply Hnfkc. intros H.
    pose proof (sub_spaces_from_spaces _ _ _ H eq_refl). discriminate. }
  assert (Hlf' : ~ In 0x0A (removelast (strip (Block.text block)))).
  { intros H. apply Hlf, in_strip.
    destruct (strip (Block.text block)) as [|x t] eqn:E; [easy|].
    rewrite (app_removelast_last 0 (l := x :: t)) by easy.
    apply in_or_app. now left. }
  split; [exact Hlf|]. split.
  - rewrite Hs in *. eapply family_numbered; [apply re_alphabetic_numbered|].
    now apply re_alphabetic_matches.
  - intros Ha font_size is_bold avg_font_size max_font_size.
    rewrite Hs in *. rewrite letter_first_score by assumption.
    apply score_level_from_4.
Qed.

(** X16, witness: the span "Chapter  3" of a one-page document, with the
    identity in place of the normalisation, is of the [numbered] family. *)
Lemma ingested_letter_first_is_numbered_witness :
  matches_heading_pattern (u "Chapter 3") latin = (true, numbered).
Proof.
  refine (proj1 (proj2 (ingested_letter_first_is_numbered (fun t => t)
            [[Some [[Span.mk (u "Chapter  3") 12 0 (u "Helvetica")
                             (72, 10, 300, 20)%float]]]]
            (Block.mk (u "Chapter 3") 1 12 0 (u "Helvetica")
                      (72, 10, 300, 20)%float)
            0x43 (u "hapter 3") latin _ _ _ _))).
  - intros t H. exact H.
  - vm_compute. left. reflexivity.
  - reflexivity.
  - left. lia.
Defined.

Lemma lstrip_spaces (t : str) : forallb isspace t = true -> lstrip t = [].
Proof.
  induction t as [|c t IH]; [reflexivity|]. simpl.
  intros H. apply andb_true_iff in H as (-> & H). now apply IH.
Qed.

(** X17: a document whose spans are all empty or made of white space, for
    instance a scanned document with image blocks only, gives no fragment,
    hence the title "Untitled Document" and an empty outline, provided the
    NFKC normalisation maps the empty text to itself. *)
Theorem blank_document_is_untitled :
  forall (nfkc : str -> str)
         (doc : list (list (option (list (list Span.t))))),
    nfkc [] = [] ->
    (forall page block lines line span,
        In page doc -> In block page -> block = Some lines ->
        In line lines -> In span line ->
        forallb isspace (Span.text span) = true) ->
    extract_text_with_formatting nfkc doc = []
    /\ extract_outline_doc nfkc doc = mkResult (u "Untitled Document") [].
Proof.
  intros nfkc doc Hnil Hblank.
  assert (He : extract_text_with_formatting nfkc doc = []).
  { destruct (extract_text_with_formatting nfkc doc) as [|b l] eqn:E;
      [reflexivity|]. exfalso.
    assert (Hb : In b (extract_text_with_formatting nfkc doc))
      by (rewrite E; now left).
    clear E. unfold extract_text_with_formatting in Hb.
    assert (Hgen : forall n pages,
               (forall page, In page pages -> In page doc) ->
               ~ In b (page_blocks nfkc n pages)).
    { intros n pages. revert n.
      induction pages as [|page rest IH]; intros n Hsub; [easy|]. simpl.
      intros H. apply in_app_or in H as [H|H].
      - apply in_flat_map in H as (block & Hblock & H).
        apply block_blocks_in in H
          as (lines & line & span & -> & Hline & Hspan & H).
        assert (Hs : strip (Span.text span) = []).
        { unfold strip.
          rewrite (lstrip_spaces (Span.text span)); [reflexivity|].
          eapply Hblank; eauto. apply Hsub. now left. }
        unfold span_block, normalize_text, sub_spaces in H.
        rewrite Hs in H. cbn [sub_spaces_from] in H.
        now rewrite Hnil in H.
      - apply (IH (n + 1)); [|exact H].
        intros page' Hp. apply Hsub. now right. }
    exact (Hgen 0 doc (fun _ H => H) Hb). }
  split; [exact He|]. unfold extract_outline_doc. now rewrite He.
Qed.

(** X17, witness: one page with an image block and a span of blanks. *)
Lemma blank_document_is_untitled_witness :
  extract_outline_doc (fun t => t)
    [[None; Some [[Span.mk (u "  ") 12 0 (u "Helvetica")
                           (72, 10, 300, 20)%float]]]]
  = mkResult (u "Untitled Document") [].
Proof.
  refine (proj2 (blank_document_is_untitled (fun t => t) _ _ _)).
  - reflexivity.
  - intros page block lines line span [<-|[]] [<-|[<-|[]]] H;
      [discriminate|].
    injection H as <-. intros [<-|[]] [<-|[]]. reflexivity.
Defined.

(** X18: every entry of the outline of a document carries the number of a
    page of that document. *)
Theorem outline_pages_valid :
  forall (nfkc : str -> str)
         (doc : list (list (option (list (list Span.t)))))
         (e : Entry.t),
    In e (outline (extract_outline_doc nfkc doc)) ->
    1 <= Entry.page e <= Z.of_nat (length doc).
Proof.
  intros nfkc doc e He. unfold extract_outline_doc in He.
  set (text_blocks := extract_text_with_formatting nfkc doc) in *.
  rewrite outline_extract in He. apply in_firstn in He.
  apply (Permutation_in _ (py_sorted_perm _ _ _)) in He.
  rewrite collected in He.
  pose proof (collect_invariant
                (average (map Block.font_size text_blocks))
                (maximum (map Block.font_size text_blocks))
                (detect_language text_blocks) text_blocks) as H.
  cbv zeta in H. destruct H as (_ & _ & _ & Hfirst).
  destruct (Hfirst e He) as (pre & b & post & Hb & _ & -> & _).
  assert (Hin : In b text_blocks)
    by (rewrite Hb; apply in_or_app; right; now left).
  apply page_blocks_in in Hin. lia.
Qed.

(** X18, witness: a heading on the second of two pages. *)
Lemma outline_pages_valid_witness :
  1 <= 2 <= Z.of_nat 2.
Proof.
  refine (outline_pages_valid (fun t => t)
            [[None];
             [Some [[Span.mk (u "1.1 Goals") 12 0 (u "Helvetica")
                             (72, 10, 300, 20)%float]]]]
            (Entry.mk H2 (u "1.1 Goals") 2) _).
  vm_compute. left. reflexivity.
Defined.

(** X14, witness: blanks, a tab and a line feed around and inside "a b". *)
Lemma normalize_text_collapses_witness :
  normalize_text (fun t => t) (u "  a" ++ [0x09; 0x0A] ++ u "b ") = u "a b"
  /\ ~ In 0x0A (u "a b").
Proof.
  destruct (normalize_text_collapses (fun t => t)
              (u "  a" ++ [0x09; 0x0A] ++ u "b "))
    as (w & Hw & _ & _ & _ & Hlf).
  assert (He : normalize_text (fun t => t)
                 (u "  a" ++ [0x09; 0x0A] ++ u "b ") = u "a b")
    by (vm_compute; reflexivity).
  split; [exact He|]. rewrite <- He, Hw. exact Hlf.
Defined.

(** ** The vocabulary of the filter *)

(** X19: a text that contains, in any mix of cases, one of the words of
    [non_heading_words] is rejected by the filter and never classified as a
    heading, whatever surrounds the word. *)
Theorem vocabulary_word_rejects :
  forall (word before part after : str) (font_size : float)
         (is_bold : bool) (avg_font_size max_font_size : float)
         (language : Script),
    In word (concat non_heading_words) ->
    lower part = word ->
    is_likely_non_heading (before ++ part ++ after) = true
    /\ classify_heading_level (before ++ part ++ after) font_size is_bold
         avg_font_size max_font_size language = None.
Proof.
  intros word before part after font_size is_bold avg_font_size
         max_font_size language Hw Hp.
  assert (H : is_likely_non_heading (before ++ part ++ after) = true).
  { unfold is_likely_non_heading.
    replace (has_non_heading_word (before ++ part ++ after)) with true;
      [reflexivity|].
    symmetry. apply has_non_heading_word_spec.
    exists word, (lower before), (lower after).
    split; [exact Hw|]. now rewrite !lower_app, Hp. }
  split; [exact H|]. now apply classify_rejected.
Qed.

(** X19, witness: "2.3 Table des Matières" is no heading. *)
Lemma vocabulary_word_rejects_witness :
  classify_heading_level (u "2.3 Table des Matières") 30 true 10 30 latin
  = None.
Proof.
  refine (proj2 (vocabulary_word_rejects (u "table des matières")
                   (u "2.3 ") (u "Table des Matières") [] 30 true 10 30
                   latin _ _)).
  - vm_compute. do 13 right. left. reflexivity.
  - vm_compute; reflexivity.
Defined.
